(** * task-api: the four /tasks routes of src/index.js

    The service is an Express router whose handlers each run one
    parameterised SQL statement through a [pg] connection pool and turn
    the outcome into a JSON response.  The development embeds

    - the JSON values a request body carries and JavaScript truthiness
      (the guard of POST /tasks is written with [!]);
    - the tasks table as explicit state, with the four statements of
      index.js given their SQL meaning on it;
    - the four handlers, line by line, as functions from a request and a
      database to a response and a database.

    Scope of the value model: the fields of a body are JSON scalars, and
    a number is a safe integer, of magnitude below 2^53, which JavaScript
    prints with all its digits.  Arrays, objects, fractional numbers and
    larger numbers are not represented. *)

From Stdlib Require Import ZArith String Ascii DecimalString DecimalZ.
From stdpp Require Import base strings numbers option gmap list.

Local Open Scope string_scope.
Local Open Scope list_scope.
Local Open Scope Z_scope.

(** ** JavaScript values *)

Module JS.

(** What [express.json()] leaves in a property of [req.body], plus
    [undefined] for a property that is not there. *)
Inductive value : Type :=
| Undefined
| Null
| Bool (b : bool)
| Num (n : Z)
| Str (s : string).

(** ToBoolean: [undefined], [null], [false], [0] and [''] are falsy. *)
Definition truthy (v : value) : bool :=
  match v with
  | Undefined | Null => false
  | Bool b => b
  | Num n => negb (n =? 0)
  | Str s => negb (String.eqb s "")
  end.

(** The operator [!]. *)
Definition not (v : value) : bool := negb (truthy v).

(** Number.prototype.toString on a safe integer. *)
Definition num_to_string (n : Z) : string :=
  NilZero.string_of_int (Z.to_int n).

(** Property read [o.k] on a parsed JSON object; this is what the
    destructuring [const { k } = o] binds. *)
Definition get (o : gmap string value) (k : string) : value :=
  default Undefined (o !! k).

End JS.

(** ** The database *)

Module Task.

(** Modelled from the spec: the schema of the tasks table is not in
    index.js.  The data model gives a Task the fields [id]
    (server-generated identifier), [title] (required string),
    [description] (optional string), [user_id] (required reference to a
    user entity) and [is_completed] (boolean, default false).  Identifiers
    are integers, drawn from a generator.  A column other than the key is
    held as SQL holds it, [None] being NULL. *)
Record row : Type := mk {
  id : Z;
  title : option string;
  description : option string;
  user_id : option Z;
  is_completed : option bool
}.

Definition with_is_completed (b : option bool) (r : row) : row :=
  {| id := id r; title := title r; description := description r;
     user_id := user_id r; is_completed := b |}.

End Task.

Module PG.

(** Modelled from the spec: the database behind the pool.  [tasks] is
    the table in the order its rows are read, [tasks_id_seq] the generator of the
    server-side identifiers, [users] the identifiers of the user
    entities a task may refer to. *)
Record Db : Type := mkDb {
  tasks : list Task.row;
  tasks_id_seq : Z;
  users : list Z
}.

(** The statements index.js sends, each with its [values] array. *)
Inductive Query : Type :=
| SelectTasks
    (* SELECT * FROM tasks *)
| InsertTask (v1 v2 v3 : JS.value)
    (* INSERT INTO tasks (title, description, user_id)
       VALUES ($1, $2, $3) RETURNING * *)
| UpdateTask (v1 v2 : JS.value)
    (* UPDATE tasks SET is_completed = $1 WHERE id = $2 RETURNING * *)
| DeleteTask (v1 : JS.value).
    (* DELETE FROM tasks WHERE id = $1 RETURNING * *)

(** [await pool.query(..)] either yields [result] with its [rows] or
    throws. *)
Inductive Outcome : Type :=
| Result (rows : list Task.row)
| Throw.

(** The driver sends every parameter as text; [undefined] and [null]
    become NULL. *)
Definition prepareValue (v : JS.value) : option string :=
  match v with
  | JS.Undefined | JS.Null => None
  | JS.Bool true => Some "true"
  | JS.Bool false => Some "false"
  | JS.Num n => Some (JS.num_to_string n)
  | JS.Str s => Some s
  end.

(** Blanks, as the input functions skip them around a value: space,
    tab, line feed, vertical tab, form feed and carriage return. *)
Definition is_space (c : ascii) : bool :=
  bool_decide (nat_of_ascii c ∈ [32; 9; 10; 11; 12; 13]%nat).

Fixpoint skip_space (s : string) : string :=
  match s with
  | String c s' => if is_space c then skip_space s' else s
  | "" => ""
  end.

Fixpoint drop_trailing_space (s : string) : string :=
  match s with
  | String c s' =>
      let t := drop_trailing_space s' in
      if is_space c && String.eqb t "" then "" else String c t
  | "" => ""
  end.

Definition trim (s : string) : string := drop_trailing_space (skip_space s).

Definition to_lower (c : ascii) : ascii :=
  let n := nat_of_ascii c in
  if (65 <=? n)%nat && (n <=? 90)%nat then ascii_of_nat (n + 32) else c.

Fixpoint lower (s : string) : string :=
  match s with
  | String c s' => String (to_lower c) (lower s')
  | "" => ""
  end.

Definition has_nul (s : string) : bool :=
  bool_decide (Ascii.zero ∈ list_ascii_of_string s).

(** Input of a parameter into a column of a given type: text for title
    and description, integer for id and user_id, boolean for
    is_completed.  The outer [option] is the error the database raises on
    a value it cannot read; the inner one is NULL.

    A text may hold any character but U+0000.  An integer is written with
    blanks around it, a sign and decimal digits, and lies within the
    32-bit range; this is the syntax every version of the database reads
    (later versions also read other bases and underscores, which are not
    taken here).  A boolean is written, in either case and with blanks
    around it, as a leading part of true, false, yes or no, as on, of or
    off, or as 1 or 0. *)
Definition textin (p : option string) : option (option string) :=
  match p with
  | None => Some None
  | Some s => if has_nul s then None else Some (Some s)
  end.

Definition int4_range (n : Z) : option Z :=
  if bool_decide (-2147483648 ≤ n ≤ 2147483647) then Some n else None.

(** The digits with their minus sign, once blanks and a plus sign are
    taken off. *)
Definition signed_digits (s : string) : option string :=
  match trim s with
  | String "+" (String "+" _) | String "+" (String "-" _) => None
  | String "+" s' => Some s'
  | s' => Some s'
  end.

Definition int4in (p : option string) : option (option Z) :=
  match p with
  | None => Some None
  | Some s =>
      t ← signed_digits s; d ← NilZero.int_of_string t; Some <$> int4_range (Z.of_int d)
  end.

Definition bool_of_text (s : string) : option bool :=
  let w := lower (trim s) in
  if bool_decide (w ∈ ["t"; "tr"; "tru"; "true"; "y"; "ye"; "yes"; "on"; "1"])
  then Some true
  else if bool_decide (w ∈ ["f"; "fa"; "fal"; "fals"; "false"; "n"; "no"; "of"; "off"; "0"])
  then Some false
  else None.

Definition boolin (p : option string) : option (option bool) :=
  match p with
  | None => Some None
  | Some s => Some <$> bool_of_text s
  end.

(** [WHERE id = $n]: a comparison with NULL selects nothing. *)
Definition id_is (i : option Z) (r : Task.row) : bool :=
  bool_decide (Some (Task.id r) = i).

Definition set_tasks (l : list Task.row) (db : Db) : Db :=
  {| tasks := l; tasks_id_seq := tasks_id_seq db; users := users db |}.

(** [nextval]: a drawn identifier is not given back when the statement
    fails afterwards. *)
Definition nextval (db : Db) : Db :=
  {| tasks := tasks db; tasks_id_seq := tasks_id_seq db + 1; users := users db |}.

(** INSERT INTO tasks (title, description, user_id) VALUES ($1, $2, $3)
    RETURNING *: the parameters are read into their columns, [id] takes
    the next identifier and [is_completed] its default; title and user_id
    are required and user_id must be the identifier of a user.  The new row
    goes to the end of the table and is the one row returned. *)
Definition insert_task (v1 v2 v3 : JS.value) (db : Db) : Outcome * Db :=
  match textin (prepareValue v1), textin (prepareValue v2), int4in (prepareValue v3) with
  | Some t, Some d, Some u =>
      let r := Task.mk (tasks_id_seq db) t d u (Some false) in
      match t, u with
      | Some _, Some uid =>
          if bool_decide (uid ∈ users db)
          then (Result [r], set_tasks (tasks db ++ [r]) (nextval db))
          else (Throw, nextval db)          (* foreign key *)
      | _, _ => (Throw, nextval db)         (* required column is NULL *)
      end
  | _, _, _ => (Throw, db)
  end.

(** UPDATE tasks SET is_completed = $1 WHERE id = $2 RETURNING *: every
    row whose id is $2 gets $1 as its is_completed and is returned as
    updated; the other rows are untouched.  The database writes the
    updated row as a new version after the rows of the table, so the
    updated rows are read last from then on. *)
Definition update_task (v1 v2 : JS.value) (db : Db) : Outcome * Db :=
  match boolin (prepareValue v1), int4in (prepareValue v2) with
  | Some b, Some i =>
      let rows := Task.with_is_completed b <$> filter (λ r, id_is i r = true) (tasks db) in
      (Result rows, set_tasks (filter (λ r, id_is i r = false) (tasks db) ++ rows) db)
  | _, _ => (Throw, db)
  end.

(** DELETE FROM tasks WHERE id = $1 RETURNING *: every row whose id is $1
    leaves the table and is returned. *)
Definition delete_task (v1 : JS.value) (db : Db) : Outcome * Db :=
  match int4in (prepareValue v1) with
  | Some i =>
      (Result (filter (λ r, id_is i r = true) (tasks db)),
       set_tasks (filter (λ r, id_is i r = false) (tasks db)) db)
  | None => (Throw, db)
  end.

(** [pool.query(query, values)] *)
Definition query (q : Query) (db : Db) : Outcome * Db :=
  match q with
  | SelectTasks => (Result (tasks db), db)
  | InsertTask v1 v2 v3 => insert_task v1 v2 v3 db
  | UpdateTask v1 v2 => update_task v1 v2 db
  | DeleteTask v1 => delete_task v1 db
  end.

(** The statement came back with a result, it did not throw. *)
Definition succeeds (q : Query) (db : Db) : bool :=
  match fst (query q db) with
  | Result _ => true
  | Throw => false
  end.

(** The row is the one the URL parameter [:id] names: the parameter
    reads as the row's identifier. *)
Definition matches (id : string) (r : Task.row) : bool :=
  match int4in (prepareValue (JS.Str id)) with
  | Some i => id_is i r
  | None => false
  end.

(** [id] identifies a row: no two rows share one. *)
Definition key_unique (db : Db) : Prop :=
  NoDup (Task.id <$> tasks db).

(** Every identifier in the table was drawn from the generator. *)
Definition ids_drawn (db : Db) : Prop :=
  Forall (λ r, Task.id r < tasks_id_seq db) (tasks db).

End PG.

(** ** The router *)

Module Api.

(** What a handler passes to [res.json]. *)
Inductive Json : Type :=
| Error (error : string)
    (* { error: .. } *)
| Rows (rows : list Task.row)
    (* result.rows *)
| Row (row : option Task.row)
    (* result.rows[0]; None is undefined *)
| Deleted (message : string) (task : option Task.row).
    (* { message: .., task: result.rows[0] } *)

Record Response : Type := mkResponse {
  status : nat;
  json : Json
}.

(** [res.json(x)] answers with status 200, [res.status(n).json(x)] with
    status [n]. *)
Definition res_json (x : Json) : Response := mkResponse 200 x.
Definition res_status_json (n : nat) (x : Json) : Response := mkResponse n x.

(** app.get('/tasks') *)
Definition get_tasks (db : PG.Db) : Response * PG.Db :=
  match PG.query PG.SelectTasks db with
  | (PG.Result rows, db') => (res_json (Rows rows), db')
  | (PG.Throw, db') => (res_status_json 500 (Error "Error al obtener tareas"), db')
  end.

(** app.post('/tasks') *)
Definition post_tasks (body : gmap string JS.value) (db : PG.Db) : Response * PG.Db :=
  let title := JS.get body "title" in
  let description := JS.get body "description" in
  let user_id := JS.get body "user_id" in
  if JS.not title || JS.not user_id
  then (res_status_json 400 (Error "Faltan campos obligatorios"), db)
  else
    match PG.query (PG.InsertTask title description user_id) db with
    | (PG.Result rows, db') => (res_status_json 201 (Row (rows !! 0%nat)), db')
    | (PG.Throw, db') => (res_status_json 500 (Error "Error al crear la tarea"), db')
    end.

(** app.put('/tasks/:id') *)
Definition put_task (id : string) (body : gmap string JS.value) (db : PG.Db)
  : Response * PG.Db :=
  let is_completed := JS.get body "is_completed" in
  match PG.query (PG.UpdateTask is_completed (JS.Str id)) db with
  | (PG.Result rows, db') =>
      if (length rows =? 0)%nat
      then (res_status_json 404 (Error "Tarea no encontrada"), db')
      else (res_json (Row (rows !! 0%nat)), db')
  | (PG.Throw, db') => (res_status_json 500 (Error "Error al actualizar la tarea"), db')
  end.

(** app.delete('/tasks/:id') *)
Definition delete_task (id : string) (db : PG.Db) : Response * PG.Db :=
  match PG.query (PG.DeleteTask (JS.Str id)) db with
  | (PG.Result rows, db') =>
      if (length rows =? 0)%nat
      then (res_status_json 404 (Error "Tarea no encontrada"), db')
      else (res_json (Deleted "Tarea eliminada correctamente" (rows !! 0%nat)), db')
  | (PG.Throw, db') => (res_status_json 500 (Error "Error al eliminar la tarea"), db')
  end.

(** The requests the router dispatches to the four handlers. *)
Inductive Request : Type :=
| GET_tasks
| POST_tasks (body : gmap string JS.value)
| PUT_task (id : string) (body : gmap string JS.value)
| DELETE_task (id : string).

Definition handle (req : Request) (db : PG.Db) : Response * PG.Db :=
  match req with
  | GET_tasks => get_tasks db
  | POST_tasks body => post_tasks body db
  | PUT_task id body => put_task id body db
  | DELETE_task id => delete_task id db
  end.

(** Requests served one after the other, oldest first. *)
Fixpoint serve (reqs : list Request) (db : PG.Db) : list Response * PG.Db :=
  match reqs with
  | [] => ([], db)
  | req :: reqs' =>
      let '(res, db1) := handle req db in
      let '(ress, db2) := serve reqs' db1 in
      (res :: ress, db2)
  end.

(** The invariant of the data model: a non-empty title and a user_id. *)
Definition valid_task (r : Task.row) : bool :=
  match Task.title r, Task.user_id r with
  | Some t, Some _ => negb (String.eqb t "")
  | _, _ => false
  end.

(** The row a POST reports as created, and the identifier of the row
    a DELETE reports as deleted. *)
Definition created (req : Request) (res : Response) : list Task.row :=
  match req, res with
  | POST_tasks _, mkResponse 201 (Row (Some r)) => [r]
  | _, _ => []
  end.

Definition deleted (req : Request) (res : Response) : list Z :=
  match req, res with
  | DELETE_task _, mkResponse 200 (Deleted _ (Some r)) => [Task.id r]
  | _, _ => []
  end.

(** All created rows and all deleted identifiers of a run, in order. *)
Definition all_created (reqs : list Request) (ress : list Response) : list Task.row :=
  concat (zip_with created reqs ress).

Definition all_deleted (reqs : list Request) (ress : list Response) : list Z :=
  concat (zip_with deleted reqs ress).

Definition create_or_delete (req : Request) : bool :=
  match req with
  | POST_tasks _ | DELETE_task _ => true
  | GET_tasks | PUT_task _ _ => false
  end.

End Api.

(** ** Start-up *)

Module Server.




End Server.

(** ** Sample requests and tables *)

Module Sample.

Definition comprar_pan : Task.row :=
  Task.mk 1 (Some "Comprar pan") None (Some 7) (Some false).

Definition pasear : Task.row :=
  Task.mk 2 (Some "Pasear al perro") (Some "por la tarde") (Some 7) (Some true).

Definition db_empty : PG.Db := PG.mkDb [] 1 [7].

Definition db_two : PG.Db := PG.mkDb [comprar_pan; pasear] 3 [7].

(** A database in which a user has the identifier 0. *)
Definition db_user0 : PG.Db := PG.mkDb [] 1 [0; 7].

(** { "title": "Comprar pan", "user_id": 7 } *)
Definition body_pan : gmap string JS.value :=
  {[ "title" := JS.Str "Comprar pan"; "user_id" := JS.Num 7 ]}.

(** { "title": "", "user_id": 7 } *)
Definition body_empty_title : gmap string JS.value :=
  {[ "title" := JS.Str ""; "user_id" := JS.Num 7 ]}.

(** { "title": "Comprar pan", "user_id": 0 } *)
Definition body_user_zero : gmap string JS.value :=
  {[ "title" := JS.Str "Comprar pan"; "user_id" := JS.Num 0 ]}.

(** { "title": "Comprar pan", "user_id": "0" } *)
Definition body_user_zero_text : gmap string JS.value :=
  {[ "title" := JS.Str "Comprar pan"; "user_id" := JS.Str "0" ]}.

(** { "is_completed": false } and { "is_completed": true } *)
Definition body_not_done : gmap string JS.value :=
  {[ "is_completed" := JS.Bool false ]}.

Definition body_done : gmap string JS.value :=
  {[ "is_completed" := JS.Bool true ]}.

End Sample.

(** ** Conversions between JavaScript values and columns *)

Lemma num_to_string_nonempty (n : Z) : JS.num_to_string n ≠ "".
Proof.
  unfold JS.num_to_string.
  destruct (Z.to_int n) as [d | d]; simpl; [| discriminate].
  destruct d; simpl; discriminate.
Qed.

Lemma to_int_proper (n : Z) :
  Z.to_int n ≠ Decimal.Pos Decimal.Nil ∧ Z.to_int n ≠ Decimal.Neg Decimal.Nil.
Proof.
  destruct n as [| p | p]; simpl; split; try discriminate.
  - intros [= H]. by apply DecimalPos.Unsigned.to_uint_nonnil in H.
  - intros [= H]. by apply DecimalPos.Unsigned.to_uint_nonnil in H.
Qed.

Lemma trim_no_space (s : string) :
  forallb (λ c, negb (PG.is_space c)) (list_ascii_of_string s) = true → PG.trim s = s.
Proof.
  intros Hs. unfold PG.trim.
  assert (PG.skip_space s = s) as ->.
  { destruct s as [| c s]; [done |]. simpl in *.
    apply andb_true_iff in Hs as [Hc _]. apply negb_true_iff in Hc. by rewrite Hc. }
  induction s as [| c s IH]; [done |]. simpl in *.
  apply andb_true_iff in Hs as [Hc Hs]. apply negb_true_iff in Hc.
  by rewrite Hc, IH.
Qed.

Lemma printed_uint_no_space (d : Decimal.uint) :
  forallb (λ c, negb (PG.is_space c)) (list_ascii_of_string (NilEmpty.string_of_uint d)) = true.
Proof. induction d; simpl; done. Qed.

Lemma printed_int_no_space (d : Decimal.signed_int) :
  forallb (λ c, negb (PG.is_space c)) (list_ascii_of_string (NilZero.string_of_int d)) = true.
Proof.
  assert (∀ u, forallb (λ c, negb (PG.is_space c))
                 (list_ascii_of_string (NilZero.string_of_uint u)) = true) as Hu.
  { intros u. destruct u; [done | apply (printed_uint_no_space _) ..]. }
  destruct d as [u | u]; simpl; apply Hu.
Qed.

(** A number as JavaScript prints it has neither blanks nor a plus sign. *)
Lemma signed_digits_printed (d : Decimal.signed_int) :
  PG.signed_digits (NilZero.string_of_int d) = Some (NilZero.string_of_int d).
Proof.
  unfold PG.signed_digits. rewrite trim_no_space by apply printed_int_no_space.
  destruct d as [u | u]; [destruct u |]; reflexivity.
Qed.

Lemma int4in_num (n : Z) :
  -2147483648 ≤ n ≤ 2147483647 →
  PG.int4in (PG.prepareValue (JS.Num n)) = Some (Some n).
Proof.
  intros Hn. unfold PG.prepareValue, PG.int4in, JS.num_to_string.
  rewrite signed_digits_printed. simpl.
  destruct (to_int_proper n) as [Hp Hm].
  rewrite NilZero.isi by done. simpl.
  rewrite DecimalZ.of_to. unfold PG.int4_range.
  by rewrite bool_decide_eq_true_2.
Qed.

Lemma int4in_num_inv (n : Z) (u : option Z) :
  PG.int4in (PG.prepareValue (JS.Num n)) = Some u → u = Some n.
Proof.
  unfold PG.prepareValue, PG.int4in, JS.num_to_string.
  rewrite signed_digits_printed. simpl.
  destruct (to_int_proper n) as [Hp Hm].
  rewrite NilZero.isi by done. simpl.
  rewrite DecimalZ.of_to. unfold PG.int4_range.
  case_bool_decide; simpl; congruence.
Qed.

Lemma truthy_prepared (v : JS.value) :
  JS.truthy v = true → ∃ s, PG.prepareValue v = Some s ∧ s ≠ "".
Proof.
  destruct v as [| | [|] | n | s]; simpl; try discriminate; intros H.
  - by exists "true".
  - exists (JS.num_to_string n). split; [done | apply num_to_string_nonempty].
  - exists s. split; [done |]. intros ->. discriminate.
Qed.


(** ** INSERT *)

Lemma textin_inv (p q : option string) : PG.textin p = Some q → q = p.
Proof.
  unfold PG.textin. destruct p as [s |]; [| congruence].
  destruct (PG.has_nul s); [discriminate | congruence].
Qed.

Lemma insert_task_result (v1 v2 v3 : JS.value) (db : PG.Db) (rows : list Task.row) (db' : PG.Db) :
  PG.insert_task v1 v2 v3 db = (PG.Result rows, db') →
  ∃ t uid,
    PG.prepareValue v1 = Some t ∧
    PG.int4in (PG.prepareValue v3) = Some (Some uid) ∧
    uid ∈ PG.users db ∧
    rows = [Task.mk (PG.tasks_id_seq db) (Some t) (PG.prepareValue v2) (Some uid) (Some false)] ∧
    db' = PG.set_tasks (PG.tasks db ++ rows) (PG.nextval db).
Proof.
  unfold PG.insert_task.
  destruct (PG.textin (PG.prepareValue v1)) as [t |] eqn:Ht; [| discriminate].
  destruct (PG.textin (PG.prepareValue v2)) as [d |] eqn:Hd; [| discriminate].
  apply textin_inv in Ht as ->. apply textin_inv in Hd as ->.
  destruct (PG.int4in (PG.prepareValue v3)) as [[uid |] |]; try discriminate.
  - destruct (PG.prepareValue v1) as [t |]; try discriminate.
    case_bool_decide; try discriminate.
    intros [= <- <-]. by exists t, uid.
  - destruct (PG.prepareValue v1); discriminate.
Qed.

Lemma insert_task_throw (v1 v2 v3 : JS.value) (db db' : PG.Db) :
  PG.insert_task v1 v2 v3 db = (PG.Throw, db') →
  PG.tasks db' = PG.tasks db ∧ PG.tasks_id_seq db ≤ PG.tasks_id_seq db'.
Proof.
  unfold PG.insert_task.
  destruct (PG.textin (PG.prepareValue v1)) as [[t |] |];
    destruct (PG.textin (PG.prepareValue v2)) as [d |];
    destruct (PG.int4in (PG.prepareValue v3)) as [[uid |] |];
    try case_bool_decide; intros [= <-]; simpl; split; (done || lia).
Qed.

(** ** Selecting rows by identifier *)

Lemma matches_spec (id : string) (r : Task.row) :
  PG.matches id r = true ↔ PG.int4in (Some id) = Some (Some (Task.id r)).
Proof.
  unfold PG.matches, PG.id_is. simpl PG.prepareValue.
  destruct (PG.int4in (Some id)) as [i |]; [| done].
  rewrite bool_decide_eq_true. split; congruence.
Qed.

Lemma matches_id_is (id : string) (i : option Z) (r : Task.row) :
  PG.int4in (Some id) = Some i → PG.matches id r = PG.id_is i r.
Proof.
  intros Hi. unfold PG.matches. change (PG.prepareValue (JS.Str id)) with (Some id).
  by rewrite Hi.
Qed.

Lemma id_is_spec (i : option Z) (r : Task.row) :
  PG.id_is i r = true ↔ i = Some (Task.id r).
Proof. unfold PG.id_is. rewrite bool_decide_eq_true. split; congruence. Qed.

Lemma filter_miss (i : option Z) (l : list Task.row) :
  (∀ r, r ∈ l → PG.id_is i r = false) →
  filter (λ r, PG.id_is i r = true) l = [] ∧
  filter (λ r, PG.id_is i r = false) l = l.
Proof.
  induction l as [| r l IH]; intros H; [done |].
  assert (PG.id_is i r = false) as Hr by (apply H; left).
  destruct IH as [IH1 IH2]; [intros r' Hr'; apply H; by right |].
  rewrite !filter_cons, Hr, IH1, IH2.
  rewrite decide_False by done. by rewrite decide_True by done.
Qed.

Lemma filter_hit_split (l : list Task.row) (r : Task.row) :
  NoDup (Task.id <$> l) → r ∈ l →
  filter (λ r', PG.id_is (Some (Task.id r)) r' = true) l = [r] ∧
  ∃ l1 l2, l = l1 ++ r :: l2 ∧
           filter (λ r', PG.id_is (Some (Task.id r)) r' = false) l = l1 ++ l2 ∧
           (∀ r', r' ∈ l1 ++ l2 → Task.id r' ≠ Task.id r).
Proof.
  induction l as [| r0 l IH]; intros Hnd Hin; [by apply elem_of_nil in Hin |].
  rewrite fmap_cons in Hnd.
  pose proof (NoDup_cons_1_1 _ _ Hnd) as Hfresh. apply NoDup_cons_1_2 in Hnd.
  apply elem_of_cons in Hin as [<- | Hin].
  - assert (∀ r', r' ∈ l → PG.id_is (Some (Task.id r)) r' = false) as Hmiss.
    { intros r' Hr'. apply not_true_is_false. rewrite id_is_spec. intros [= Heq].
      apply Hfresh. rewrite Heq. apply list_elem_of_fmap. eauto. }
    destruct (filter_miss _ _ Hmiss) as [H1 H2].
    assert (PG.id_is (Some (Task.id r)) r = true) as Hr by by apply id_is_spec.
    rewrite !filter_cons, Hr, H1, H2.
    rewrite decide_True by done. rewrite decide_False by done.
    split; [done |]. exists [], l. split; [done |]. split; [done |].
    intros r' Hr' Heq. simpl in Hr'. specialize (Hmiss r' Hr').
    apply not_true_iff_false in Hmiss. apply Hmiss, id_is_spec. by rewrite Heq.
  - destruct (IH Hnd Hin) as (H1 & l1 & l2 & -> & H2 & H3).
    assert (Task.id r0 ≠ Task.id r) as Hne.
    { intros Heq. apply Hfresh. rewrite Heq. apply list_elem_of_fmap.
      exists r. split; [done |]. apply elem_of_app. right. left. }
    assert (PG.id_is (Some (Task.id r)) r0 = false) as Hr0.
    { apply not_true_is_false. rewrite id_is_spec. congruence. }
    rewrite !filter_cons, Hr0, H1, H2.
    rewrite decide_False by done. rewrite decide_True by done.
    split; [done |]. exists (r0 :: l1), l2. split; [done |]. split; [done |].
    intros r' Hr'. simpl in Hr'. apply elem_of_cons in Hr' as [-> | Hr']; auto.
Qed.

(** ** UPDATE and DELETE *)



Lemma set_tasks_same (db : PG.Db) : PG.set_tasks (PG.tasks db) db = db.
Proof. by destruct db. Qed.

Lemma filter_all_hit (i : option Z) (l : list Task.row) :
  (∀ r, r ∈ l → PG.id_is i r = true) →
  filter (λ r, PG.id_is i r = true) l = l ∧
  filter (λ r, PG.id_is i r = false) l = [].
Proof.
  induction l as [| r l IH]; intros H; [done |].
  assert (PG.id_is i r = true) as Hr by (apply H; left).
  destruct IH as [IH1 IH2]; [intros r' Hr'; apply H; by right |].
  rewrite !filter_cons, Hr, IH1, IH2.
  rewrite decide_True by done. by rewrite decide_False by done.
Qed.

Lemma missed_miss (i : option Z) (l : list Task.row) (r : Task.row) :
  r ∈ filter (λ r, PG.id_is i r = false) l → PG.id_is i r = false.
Proof. by intros [Hr _]%list_elem_of_filter. Qed.

Lemma updated_hit (b : option bool) (i : option Z) (l : list Task.row) (r : Task.row) :
  r ∈ Task.with_is_completed b <$> filter (λ r, PG.id_is i r = true) l →
  PG.id_is i r = true.
Proof. by intros (r0 & -> & [Hr0 _]%list_elem_of_filter)%list_elem_of_fmap. Qed.

(** An UPDATE keeps the identifiers of the table, each as often as it was
    there. *)
Lemma update_ids_perm (b : option bool) (i : option Z) (l : list Task.row) :
  Task.id <$> (filter (λ r, PG.id_is i r = false) l ++
               (Task.with_is_completed b <$> filter (λ r, PG.id_is i r = true) l))
  ≡ₚ Task.id <$> l.
Proof.
  rewrite fmap_app, <- list_fmap_compose.
  induction l as [| r l IH]; [done |].
  rewrite !filter_cons. destruct (PG.id_is i r) eqn:Hr.
  - rewrite decide_False by done. rewrite decide_True by done.
    rewrite !fmap_cons. simpl. rewrite <- Permutation_middle. by constructor.
  - rewrite decide_True by done. rewrite decide_False by done.
    rewrite !fmap_cons. simpl. by constructor.
Qed.

(** What holds of every row, and of a row whatever its is_completed,
    holds of every row after an UPDATE. *)
Lemma update_Forall (P : Task.row → Prop) (b : option bool) (i : option Z)
    (l : list Task.row) :
  (∀ r, P r → P (Task.with_is_completed b r)) →
  Forall P l →
  Forall P (filter (λ r, PG.id_is i r = false) l ++
            (Task.with_is_completed b <$> filter (λ r, PG.id_is i r = true) l)).
Proof.
  intros Hset Hl. rewrite Forall_forall in Hl. apply Forall_forall.
  intros r [[_ Hr]%list_elem_of_filter
           | (r0 & -> & [_ Hr0]%list_elem_of_filter)%list_elem_of_fmap]%elem_of_app; auto.
Qed.

(** When no row is selected, the table after an UPDATE is the table
    before. *)
Lemma update_miss (b : option bool) (i : option Z) (l : list Task.row) :
  (∀ r, r ∈ l → PG.id_is i r = false) →
  filter (λ r, PG.id_is i r = false) l ++
    (Task.with_is_completed b <$> filter (λ r, PG.id_is i r = true) l) = l.
Proof.
  intros Hmiss. destruct (filter_miss _ _ Hmiss) as [-> ->]. simpl. apply app_nil_r.
Qed.

(** ** POST /tasks *)

Lemma post_tasks_guard (body : gmap string JS.value) (db : PG.Db) :
  JS.truthy (JS.get body "title") = false ∨ JS.truthy (JS.get body "user_id") = false →
  Api.post_tasks body db =
    (Api.res_status_json 400 (Api.Error "Faltan campos obligatorios"), db).
Proof.
  intros H. unfold Api.post_tasks, JS.not.
  destruct H as [-> | ->]; simpl; [done |]. by rewrite orb_true_r.
Qed.

Lemma post_tasks_pass (body : gmap string JS.value) (db : PG.Db) :
  JS.truthy (JS.get body "title") = true →
  JS.truthy (JS.get body "user_id") = true →
  Api.post_tasks body db =
    match PG.insert_task (JS.get body "title") (JS.get body "description")
            (JS.get body "user_id") db with
    | (PG.Result rows, db') => (Api.res_status_json 201 (Api.Row (rows !! 0%nat)), db')
    | (PG.Throw, db') => (Api.res_status_json 500 (Api.Error "Error al crear la tarea"), db')
    end.
Proof. intros Ht Hu. unfold Api.post_tasks, JS.not. by rewrite Ht, Hu. Qed.

(** C1, as stated, fails: the body below contains a title and a user_id,
    the user 7 exists, and the answer is 400 with nothing inserted. *)
Lemma post_tasks_present_title_rejected :
  Sample.body_empty_title !! "title" = Some (JS.Str "") ∧
  Sample.body_empty_title !! "user_id" = Some (JS.Num 7) ∧
  Api.post_tasks Sample.body_empty_title Sample.db_empty =
    (Api.mkResponse 400 (Api.Error "Faltan campos obligatorios"), Sample.db_empty).
Proof. by vm_compute. Qed.

(** C1, amended: for every POST /tasks request whose title and user_id
    are both truthy and whose INSERT the database accepts, the handler
    appends one row to the tasks table and responds 201 with that row.  The
    row carries the identifier drawn from the generator, the title and the
    user_id of the body as the columns read them, the description of the
    body (NULL when the body has none) and is_completed false. *)
Theorem post_tasks_created (body : gmap string JS.value) (db : PG.Db) :
  JS.truthy (JS.get body "title") = true →
  JS.truthy (JS.get body "user_id") = true →
  PG.succeeds (PG.InsertTask (JS.get body "title") (JS.get body "description")
                 (JS.get body "user_id")) db = true →
  ∃ r : Task.row,
    Api.post_tasks body db =
      (Api.mkResponse 201 (Api.Row (Some r)),
       PG.mkDb (PG.tasks db ++ [r]) (PG.tasks_id_seq db + 1) (PG.users db)) ∧
    Task.id r = PG.tasks_id_seq db ∧
    Task.title r = PG.prepareValue (JS.get body "title") ∧
    Task.description r = PG.prepareValue (JS.get body "description") ∧
    PG.int4in (PG.prepareValue (JS.get body "user_id")) = Some (Task.user_id r) ∧
    Task.is_completed r = Some false ∧
    (∀ t, JS.get body "title" = JS.Str t → Task.title r = Some t) ∧
    (∀ u, JS.get body "user_id" = JS.Num u → Task.user_id r = Some u) ∧
    (∀ d, JS.get body "description" = JS.Str d → Task.description r = Some d) ∧
    (body !! "description" = None → Task.description r = None).
Proof.
  intros Ht Hu Hok. rewrite post_tasks_pass by done.
  unfold PG.succeeds in Hok. simpl in Hok.
  destruct (PG.insert_task _ _ _ db) as [[rows |] db'] eqn:Hins; [| discriminate].
  apply insert_task_result in Hins as (t & uid & Hpt & Hpu & _ & -> & ->).
  eexists. split; [reflexivity |]. simpl.
  repeat match goal with |- _ ∧ _ => split end; try done.
  - intros t' Heq. rewrite Heq in Hpt. simpl in Hpt. congruence.
  - intros u Heq. rewrite Heq in Hpu. by apply int4in_num_inv in Hpu.
  - intros d ->. done.
  - intros Hd. unfold JS.get. by rewrite Hd.
Qed.

Lemma post_tasks_created_witness :
  JS.truthy (JS.get Sample.body_pan "title") = true ∧
  JS.truthy (JS.get Sample.body_pan "user_id") = true ∧
  PG.succeeds (PG.InsertTask (JS.get Sample.body_pan "title")
                 (JS.get Sample.body_pan "description")
                 (JS.get Sample.body_pan "user_id")) Sample.db_empty = true ∧
  ∃ r : Task.row,
    Api.post_tasks Sample.body_pan Sample.db_empty =
      (Api.mkResponse 201 (Api.Row (Some r)),
       PG.mkDb (PG.tasks Sample.db_empty ++ [r]) (PG.tasks_id_seq Sample.db_empty + 1)
         (PG.users Sample.db_empty)) ∧
    Task.id r = PG.tasks_id_seq Sample.db_empty ∧
    Task.title r = PG.prepareValue (JS.get Sample.body_pan "title") ∧
    Task.description r = PG.prepareValue (JS.get Sample.body_pan "description") ∧
    PG.int4in (PG.prepareValue (JS.get Sample.body_pan "user_id")) = Some (Task.user_id r) ∧
    Task.is_completed r = Some false ∧
    (∀ t, JS.get Sample.body_pan "title" = JS.Str t → Task.title r = Some t) ∧
    (∀ u, JS.get Sample.body_pan "user_id" = JS.Num u → Task.user_id r = Some u) ∧
    (∀ d, JS.get Sample.body_pan "description" = JS.Str d → Task.description r = Some d) ∧
    (Sample.body_pan !! "description" = None → Task.description r = None).
Proof.
  split; [reflexivity |]. split; [reflexivity |]. split; [reflexivity |].
  apply (post_tasks_created Sample.body_pan Sample.db_empty); reflexivity.
Defined.

(** The three ways a POST /tasks ends. *)
Lemma post_tasks_cases (body : gmap string JS.value) (db : PG.Db) :
  ((JS.truthy (JS.get body "title") = false ∨ JS.truthy (JS.get body "user_id") = false) ∧
   Api.post_tasks body db =
     (Api.mkResponse 400 (Api.Error "Faltan campos obligatorios"), db))
  ∨ (JS.truthy (JS.get body "title") = true ∧ JS.truthy (JS.get body "user_id") = true ∧
     ∃ db', Api.post_tasks body db =
              (Api.mkResponse 500 (Api.Error "Error al crear la tarea"), db') ∧
            PG.tasks db' = PG.tasks db ∧
            PG.tasks_id_seq db ≤ PG.tasks_id_seq db')
  ∨ (JS.truthy (JS.get body "title") = true ∧ JS.truthy (JS.get body "user_id") = true ∧
     ∃ t uid,
       PG.prepareValue (JS.get body "title") = Some t ∧ t ≠ "" ∧
       PG.int4in (PG.prepareValue (JS.get body "user_id")) = Some (Some uid) ∧
       let r := Task.mk (PG.tasks_id_seq db) (Some t)
                  (PG.prepareValue (JS.get body "description")) (Some uid) (Some false) in
       Api.post_tasks body db =
         (Api.mkResponse 201 (Api.Row (Some r)),
          PG.mkDb (PG.tasks db ++ [r]) (PG.tasks_id_seq db + 1) (PG.users db))).
Proof.
  destruct (JS.truthy (JS.get body "title")) eqn:Ht; cycle 1.
  { left. split; [by left |]. apply post_tasks_guard. by left. }
  destruct (JS.truthy (JS.get body "user_id")) eqn:Hu; cycle 1.
  { left. split; [by right |]. apply post_tasks_guard. by right. }
  right. rewrite post_tasks_pass by done.
  destruct (PG.insert_task _ _ _ db) as [[rows |] db'] eqn:Hins.
  - right. do 2 (split; [done |]).
    apply insert_task_result in Hins as (t & uid & Hpt & Hpu & _ & -> & ->).
    exists t, uid. destruct (truthy_prepared _ Ht) as (t' & Ht' & Hne).
    repeat split; try done. congruence.
  - left. do 2 (split; [done |]). exists db'. split; [done |].
    by apply insert_task_throw in Hins.
Qed.

(** C2, as stated, fails: no required field is absent from the body
    below, and the answer is 400. *)
Lemma post_tasks_400_without_absent_field :
  Sample.body_user_zero !! "title" = Some (JS.Str "Comprar pan") ∧
  Sample.body_user_zero !! "user_id" = Some (JS.Num 0) ∧
  Api.post_tasks Sample.body_user_zero Sample.db_empty =
    (Api.mkResponse 400 (Api.Error "Faltan campos obligatorios"), Sample.db_empty).
Proof. by vm_compute. Qed.

(** C2, amended: the response to POST /tasks is 400 exactly when title or
    user_id is falsy, which an absent field is and so are null, false, 0
    and the empty string; whenever the response is 400, and so whenever the
    body lacks title or lacks user_id, the database is unchanged and no row
    is persisted. *)
Theorem post_tasks_400_iff_falsy (body : gmap string JS.value) (db : PG.Db) :
  (Api.status (Api.post_tasks body db).1 = 400%nat ↔
     JS.truthy (JS.get body "title") = false ∨ JS.truthy (JS.get body "user_id") = false) ∧
  (Api.status (Api.post_tasks body db).1 = 400%nat → (Api.post_tasks body db).2 = db) ∧
  (body !! "title" = None ∨ body !! "user_id" = None →
     Api.post_tasks body db =
       (Api.mkResponse 400 (Api.Error "Faltan campos obligatorios"), db)).
Proof.
  assert (Api.status (Api.post_tasks body db).1 = 400%nat →
          (JS.truthy (JS.get body "title") = false ∨ JS.truthy (JS.get body "user_id") = false) ∧
          (Api.post_tasks body db).2 = db) as H400.
  { destruct (post_tasks_cases body db)
      as [[Hf ->] | [(_ & _ & db' & -> & _) | (_ & _ & t & uid & _ & _ & _ & ->)]];
      simpl; [done | discriminate | discriminate]. }
  split; [split |]; [apply H400 | | split; [apply H400 |]].
  - intros Hf. by rewrite post_tasks_guard.
  - intros Habs. apply post_tasks_guard. unfold JS.get.
    destruct Habs as [-> | ->]; [by left | by right].
Qed.

Lemma post_tasks_400_iff_falsy_witness :
  Api.status (Api.post_tasks Sample.body_user_zero Sample.db_empty).1 = 400%nat ∧
  (Api.post_tasks Sample.body_user_zero Sample.db_empty).2 = Sample.db_empty.
Proof.
  pose proof (post_tasks_400_iff_falsy Sample.body_user_zero Sample.db_empty)
    as (Hiff & Hsame & _).
  assert (Api.status (Api.post_tasks Sample.body_user_zero Sample.db_empty).1 = 400%nat) as H.
  { apply Hiff. right. reflexivity. }
  split; [exact H | exact (Hsame H)].
Defined.

(** C10, as stated, fails in its consequence: the user_id "0" is a
    non-empty string, hence truthy, and the row is created with the
    user_id 0. *)
Lemma post_tasks_creates_user_zero :
  Api.post_tasks Sample.body_user_zero_text Sample.db_user0 =
    (Api.mkResponse 201
       (Api.Row (Some (Task.mk 1 (Some "Comprar pan") None (Some 0) (Some false)))),
     PG.mkDb [Task.mk 1 (Some "Comprar pan") None (Some 0) (Some false)] 2 [0; 7]).
Proof. by vm_compute. Qed.

(** C10, amended: POST /tasks responds 400, leaving the database as it
    was, for every request whose title or user_id is falsy, present or not
    (the empty string as title, the number 0 as user_id); consequently every
    row a POST adds comes from a request whose title is not the empty string
    and whose user_id is not the number 0, and has a non-empty title.  Its
    user_id is 0 only when the body gave user_id as a non-empty string. *)
Theorem post_tasks_falsy_rejected (body : gmap string JS.value) (db : PG.Db) :
  (JS.truthy (JS.get body "title") = false ∨ JS.truthy (JS.get body "user_id") = false →
     Api.post_tasks body db =
       (Api.mkResponse 400 (Api.Error "Faltan campos obligatorios"), db)) ∧
  (body !! "title" = Some (JS.Str "") ∨ body !! "user_id" = Some (JS.Num 0) →
     Api.post_tasks body db =
       (Api.mkResponse 400 (Api.Error "Faltan campos obligatorios"), db)) ∧
  (∀ r, r ∈ PG.tasks (Api.post_tasks body db).2 →
     r ∈ PG.tasks db ∨
     (JS.get body "title" ≠ JS.Str "" ∧ JS.get body "user_id" ≠ JS.Num 0 ∧
      Task.title r ≠ Some "" ∧ Task.title r ≠ None ∧
      (Task.user_id r = Some 0 → ∃ s, JS.get body "user_id" = JS.Str s ∧ s ≠ ""))).
Proof.
  split; [apply post_tasks_guard |]. split.
  { intros H. apply post_tasks_guard. unfold JS.get.
    destruct H as [-> | ->]; [by left | by right]. }
  intros r.
  destruct (post_tasks_cases body db)
    as [[_ ->] | [(_ & _ & db' & -> & Hsame & _) | (Ht & Hu & t & uid & Hpt & Hne & Hpu & ->)]];
    simpl; [by left | rewrite Hsame; by left |].
  intros [Hold | Hnew%list_elem_of_singleton]%elem_of_app; [by left |]. right. subst r. simpl.
  split; [intros Heq; by rewrite Heq in Ht |].
  split; [intros Heq; by rewrite Heq in Hu |].
  split; [congruence |]. split; [done |].
  intros [= ->]. destruct (JS.get body "user_id") as [| | [|] | n | s]; try discriminate.
  - apply int4in_num_inv in Hpu. injection Hpu as <-. discriminate.
  - exists s. split; [done |]. intros ->. discriminate.
Qed.

Lemma post_tasks_falsy_rejected_witness :
  Api.post_tasks Sample.body_empty_title Sample.db_two =
    (Api.mkResponse 400 (Api.Error "Faltan campos obligatorios"), Sample.db_two).
Proof.
  apply (post_tasks_falsy_rejected Sample.body_empty_title Sample.db_two).
  left. reflexivity.
Defined.

(** ** PUT /tasks/:id *)

(** The handler, with the UPDATE statement unfolded. *)
Lemma put_task_unfold (id : string) (body : gmap string JS.value) (db : PG.Db) :
  Api.put_task id body db =
    match PG.boolin (PG.prepareValue (JS.get body "is_completed")), PG.int4in (Some id) with
    | Some b, Some i =>
        let rows := Task.with_is_completed b <$> filter (λ r, PG.id_is i r = true) (PG.tasks db) in
        let db' :=
          PG.set_tasks (filter (λ r, PG.id_is i r = false) (PG.tasks db) ++ rows) db in
        if (length rows =? 0)%nat
        then (Api.mkResponse 404 (Api.Error "Tarea no encontrada"), db')
        else (Api.mkResponse 200 (Api.Row (rows !! 0%nat)), db')
    | _, _ => (Api.mkResponse 500 (Api.Error "Error al actualizar la tarea"), db)
    end.
Proof.
  unfold Api.put_task, PG.query, PG.update_task.
  change (PG.prepareValue (JS.Str id)) with (Some id).
  destruct (PG.boolin _) as [b |]; [| done].
  destruct (PG.int4in (Some id)) as [i |]; done.
Qed.

Lemma update_succeeds (v : JS.value) (id : string) (db : PG.Db) :
  PG.succeeds (PG.UpdateTask v (JS.Str id)) db = true →
  ∃ b i, PG.boolin (PG.prepareValue v) = Some b ∧ PG.int4in (Some id) = Some i.
Proof.
  unfold PG.succeeds, PG.query, PG.update_task.
  change (PG.prepareValue (JS.Str id)) with (Some id).
  destruct (PG.boolin _) as [b |]; [| discriminate].
  destruct (PG.int4in (Some id)) as [i |]; [| discriminate].
  intros _. by exists b, i.
Qed.

(** A PUT that names an existing row, in a table where identifiers are
    unique, once the value for is_completed has been read as [b]. *)
Lemma put_task_hit (id : string) (body : gmap string JS.value) (db : PG.Db)
    (r : Task.row) (b : option bool) :
  r ∈ PG.tasks db → PG.matches id r = true → PG.key_unique db →
  PG.boolin (PG.prepareValue (JS.get body "is_completed")) = Some b →
  ∃ db', Api.put_task id body db =
           (Api.mkResponse 200 (Api.Row (Some (Task.with_is_completed b r))), db') ∧
         PG.tasks_id_seq db' = PG.tasks_id_seq db ∧ PG.users db' = PG.users db ∧
         Task.with_is_completed b r ∈ PG.tasks db' ∧
         (∀ r', r' ∈ PG.tasks db' → Task.id r' = Task.id r → Task.is_completed r' = b).
Proof.
  intros Hin Hm Hnd Hb. apply matches_spec in Hm.
  rewrite put_task_unfold, Hb, Hm.
  destruct (filter_hit_split _ _ Hnd Hin) as [-> _]. simpl.
  eexists. split; [reflexivity |]. simpl. do 2 (split; [done |]). split.
  - apply elem_of_app. right. left.
  - intros r' [[Hmiss _]%list_elem_of_filter | ->%list_elem_of_singleton]%elem_of_app;
      [| done].
    intros Heq. apply not_true_iff_false in Hmiss. exfalso. apply Hmiss, id_is_spec.
    by rewrite Heq.
Qed.

Lemma boolin_bool (c : bool) : PG.boolin (PG.prepareValue (JS.Bool c)) = Some (Some c).
Proof. by destruct c. Qed.

(** C3, as stated, fails: the row 1 matches :id, and the request
    supplies 2 for is_completed.  The boolean column refuses it, the answer
    is 500 and the row is as it was. *)
Lemma put_task_refused_value :
  PG.tasks Sample.db_two = [Sample.comprar_pan; Sample.pasear] ∧
  PG.matches "1" Sample.comprar_pan = true ∧
  JS.get {[ "is_completed" := JS.Num 2 ]} "is_completed" = JS.Num 2 ∧
  Api.put_task "1" {[ "is_completed" := JS.Num 2 ]} Sample.db_two =
    (Api.mkResponse 500 (Api.Error "Error al actualizar la tarea"), Sample.db_two).
Proof. by vm_compute. Qed.

(** C3, amended: for every PUT /tasks/:id request where a row of the table
    matches :id and the UPDATE statement runs without a database error, the
    handler
    sets the is_completed of that row to the value the columns read from the
    body (the boolean the body supplies; NULL when it supplies none), and
    responds 200 with the updated row. *)
Theorem put_task_sets_is_completed (id : string) (body : gmap string JS.value) (db : PG.Db)
    (r : Task.row) :
  r ∈ PG.tasks db → PG.matches id r = true → PG.key_unique db →
  PG.succeeds (PG.UpdateTask (JS.get body "is_completed") (JS.Str id)) db = true →
  ∃ (b : option bool) (db' : PG.Db),
    PG.boolin (PG.prepareValue (JS.get body "is_completed")) = Some b ∧
    (∀ c, JS.get body "is_completed" = JS.Bool c → b = Some c) ∧
    (body !! "is_completed" = None → b = None) ∧
    Api.put_task id body db =
      (Api.mkResponse 200 (Api.Row (Some (Task.with_is_completed b r))), db') ∧
    Task.with_is_completed b r ∈ PG.tasks db' ∧
    (∀ r', r' ∈ PG.tasks db' → Task.id r' = Task.id r → Task.is_completed r' = b).
Proof.
  intros Hin Hm Hnd Hok.
  apply update_succeeds in Hok as (b & i & Hb & _).
  destruct (put_task_hit id body db r b Hin Hm Hnd Hb) as (db' & Hput & _ & _ & Hnew & Hall).
  exists b, db'. split; [done |]. split; [| split; [| done]].
  - intros c Hc. rewrite Hc, boolin_bool in Hb. congruence.
  - intros Habs. unfold JS.get in Hb. rewrite Habs in Hb. simpl in Hb. congruence.
Qed.

Lemma put_task_sets_is_completed_witness :
  Sample.comprar_pan ∈ PG.tasks Sample.db_two ∧
  PG.matches "1" Sample.comprar_pan = true ∧
  PG.key_unique Sample.db_two ∧
  PG.succeeds (PG.UpdateTask (JS.get Sample.body_done "is_completed") (JS.Str "1"))
    Sample.db_two = true ∧
  ∃ (b : option bool) (db' : PG.Db),
    PG.boolin (PG.prepareValue (JS.get Sample.body_done "is_completed")) = Some b ∧
    (∀ c, JS.get Sample.body_done "is_completed" = JS.Bool c → b = Some c) ∧
    (Sample.body_done !! "is_completed" = None → b = None) ∧
    Api.put_task "1" Sample.body_done Sample.db_two =
      (Api.mkResponse 200 (Api.Row (Some (Task.with_is_completed b Sample.comprar_pan))), db') ∧
    Task.with_is_completed b Sample.comprar_pan ∈ PG.tasks db' ∧
    (∀ r', r' ∈ PG.tasks db' → Task.id r' = Task.id Sample.comprar_pan →
           Task.is_completed r' = b).
Proof.
  assert (Sample.comprar_pan ∈ PG.tasks Sample.db_two) as Hin by (simpl; left).
  assert (PG.key_unique Sample.db_two) as Hnd.
  { unfold PG.key_unique. apply (bool_decide_unpack _). by vm_compute. }
  split; [exact Hin |]. split; [reflexivity |]. split; [exact Hnd |]. split; [reflexivity |].
  apply (put_task_sets_is_completed "1" Sample.body_done Sample.db_two Sample.comprar_pan);
    [exact Hin | reflexivity | exact Hnd | reflexivity].
Defined.

(** C4, as stated, fails: the row 1 is not completed, the request asks for
    is_completed false, and the row stays not completed. *)
Lemma put_task_does_not_toggle :
  Task.is_completed Sample.comprar_pan = Some false ∧
  PG.matches "1" Sample.comprar_pan = true ∧
  PG.tasks Sample.db_two = [Sample.comprar_pan; Sample.pasear] ∧
  Api.put_task "1" Sample.body_not_done Sample.db_two =
    (Api.mkResponse 200 (Api.Row (Some Sample.comprar_pan)),
     PG.mkDb [Sample.pasear; Sample.comprar_pan] 3 [7]).
Proof. by vm_compute. Qed.

(** C4, amended: for every PUT /tasks/:id request where a row of the table
    matches :id and the UPDATE statement runs without a database error, the
    resulting is_completed of that row is the value the body supplies,
    whatever it was before: with a boolean in the body it is the negation
    of the previous value exactly when the body supplies that negation, and
    a request that supplies the current value leaves the row as it was.  The
    response carries the updated row. *)
Theorem put_task_overwrites (id : string) (body : gmap string JS.value) (db : PG.Db)
    (r : Task.row) :
  r ∈ PG.tasks db → PG.matches id r = true → PG.key_unique db →
  PG.succeeds (PG.UpdateTask (JS.get body "is_completed") (JS.Str id)) db = true →
  ∃ (b : option bool) (db' : PG.Db),
    Api.put_task id body db =
      (Api.mkResponse 200 (Api.Row (Some (Task.with_is_completed b r))), db') ∧
    Task.with_is_completed b r ∈ PG.tasks db' ∧
    (∀ r', r' ∈ PG.tasks db' → Task.id r' = Task.id r → Task.is_completed r' = b) ∧
    (∀ c, JS.get body "is_completed" = JS.Bool c →
       b = Some c ∧
       (∀ p, Task.is_completed r = Some p → (b = Some (negb p) ↔ c = negb p)) ∧
       (Task.is_completed r = Some c → Task.with_is_completed b r = r)).
Proof.
  intros Hin Hm Hnd Hok.
  apply update_succeeds in Hok as (b & i & Hb & _).
  destruct (put_task_hit id body db r b Hin Hm Hnd Hb) as (db' & Hput & _ & _ & Hnew & Hall).
  exists b, db'. do 3 (split; [done |]).
  intros c Hc. rewrite Hc, boolin_bool in Hb. injection Hb as <-.
  split; [done |]. split.
  - intros p _. split; congruence.
  - intros Hsame. destruct r. simpl in *. by rewrite Hsame.
Qed.

Lemma put_task_overwrites_witness :
  Sample.pasear ∈ PG.tasks Sample.db_two ∧
  PG.matches "2" Sample.pasear = true ∧
  PG.key_unique Sample.db_two ∧
  PG.succeeds (PG.UpdateTask (JS.get Sample.body_not_done "is_completed") (JS.Str "2"))
    Sample.db_two = true ∧
  ∃ (b : option bool) (db' : PG.Db),
    Api.put_task "2" Sample.body_not_done Sample.db_two =
      (Api.mkResponse 200 (Api.Row (Some (Task.with_is_completed b Sample.pasear))), db') ∧
    Task.with_is_completed b Sample.pasear ∈ PG.tasks db' ∧
    (∀ r', r' ∈ PG.tasks db' → Task.id r' = Task.id Sample.pasear →
           Task.is_completed r' = b) ∧
    (∀ c, JS.get Sample.body_not_done "is_completed" = JS.Bool c →
       b = Some c ∧
       (∀ p, Task.is_completed Sample.pasear = Some p → (b = Some (negb p) ↔ c = negb p)) ∧
       (Task.is_completed Sample.pasear = Some c →
        Task.with_is_completed b Sample.pasear = Sample.pasear)).
Proof.
  assert (Sample.pasear ∈ PG.tasks Sample.db_two) as Hin by (simpl; right; left).
  assert (PG.key_unique Sample.db_two) as Hnd.
  { unfold PG.key_unique. apply (bool_decide_unpack _). by vm_compute. }
  split; [exact Hin |]. split; [reflexivity |]. split; [exact Hnd |]. split; [reflexivity |].
  apply (put_task_overwrites "2" Sample.body_not_done Sample.db_two Sample.pasear);
    [exact Hin | reflexivity | exact Hnd | reflexivity].
Defined.

(** C9: for every PUT /tasks/:id answered 200, the generator and the users
    are as before, and the table holds the same tasks as before, as many and
    under the same identifiers, with nothing changed but is_completed in the
    rows that match :id: the rows that do not match :id are the same rows in
    the same order, every row afterwards continues a row from before with
    its id, title, description and user_id, and every row from before is
    continued so. *)
Theorem put_task_frame (id : string) (body : gmap string JS.value) (db : PG.Db) :
  Api.status (Api.put_task id body db).1 = 200%nat →
  PG.tasks_id_seq (Api.put_task id body db).2 = PG.tasks_id_seq db ∧
  PG.users (Api.put_task id body db).2 = PG.users db ∧
  length (PG.tasks (Api.put_task id body db).2) = length (PG.tasks db) ∧
  Task.id <$> PG.tasks (Api.put_task id body db).2 ≡ₚ Task.id <$> PG.tasks db ∧
  filter (λ r, PG.matches id r = false) (PG.tasks (Api.put_task id body db).2) =
    filter (λ r, PG.matches id r = false) (PG.tasks db) ∧
  (∀ r', r' ∈ PG.tasks (Api.put_task id body db).2 →
     ∃ r, r ∈ PG.tasks db ∧
          Task.id r' = Task.id r ∧ Task.title r' = Task.title r ∧
          Task.description r' = Task.description r ∧ Task.user_id r' = Task.user_id r ∧
          (PG.matches id r = false → r' = r)) ∧
  (∀ r, r ∈ PG.tasks db →
     ∃ r', r' ∈ PG.tasks (Api.put_task id body db).2 ∧
           Task.id r' = Task.id r ∧ Task.title r' = Task.title r ∧
           Task.description r' = Task.description r ∧ Task.user_id r' = Task.user_id r ∧
           (PG.matches id r = false → r' = r)).
Proof.
  rewrite put_task_unfold.
  destruct (PG.boolin _) as [b |]; [| discriminate].
  destruct (PG.int4in (Some id)) as [i |] eqn:Hi; [| discriminate]. simpl.
  destruct (_ =? _)%nat; [discriminate |]. intros _. simpl.
  pose proof (update_ids_perm b i (PG.tasks db)) as Hperm.
  do 2 (split; [done |]). split.
  { apply Permutation_length in Hperm. by rewrite !length_fmap in Hperm. }
  split; [done |]. split.
  { rewrite !(list_filter_iff (λ r, PG.matches id r = false) (λ r, PG.id_is i r = false))
      by (intros r; by rewrite (matches_id_is id i)).
    rewrite filter_app.
    destruct (filter_miss i _ (missed_miss i (PG.tasks db))) as [_ ->].
    destruct (filter_all_hit i _ (updated_hit b i (PG.tasks db))) as [_ ->].
    apply app_nil_r. }
  split.
  - intros r' [Hr' | (r & -> & [Hhit Hr]%list_elem_of_filter)%list_elem_of_fmap]%elem_of_app.
    + apply list_elem_of_filter in Hr' as [_ Hr']. by exists r'.
    + exists r. do 5 (split; [done |]).
      rewrite (matches_id_is id i) by done. congruence.
  - intros r Hr. destruct (PG.id_is i r) eqn:Hhit.
    + exists (Task.with_is_completed b r). split.
      { apply elem_of_app. right. apply list_elem_of_fmap_2. by apply list_elem_of_filter. }
      do 4 (split; [done |]). rewrite (matches_id_is id i) by done. congruence.
    + exists r. split; [| done]. apply elem_of_app. left. by apply list_elem_of_filter.
Qed.

Lemma put_task_frame_witness :
  Api.status (Api.put_task "1" Sample.body_done Sample.db_two).1 = 200%nat ∧
  PG.tasks_id_seq (Api.put_task "1" Sample.body_done Sample.db_two).2 = 3 ∧
  PG.users (Api.put_task "1" Sample.body_done Sample.db_two).2 = [7] ∧
  length (PG.tasks (Api.put_task "1" Sample.body_done Sample.db_two).2) = 2%nat ∧
  filter (λ r, PG.matches "1" r = false)
    (PG.tasks (Api.put_task "1" Sample.body_done Sample.db_two).2) = [Sample.pasear].
Proof.
  split; [reflexivity |].
  pose proof (put_task_frame "1" Sample.body_done Sample.db_two eq_refl)
    as (H1 & H2 & H3 & _ & H4 & _).
  split; [exact H1 |]. split; [exact H2 |]. split; [exact H3 | exact H4].
Defined.

(** ** DELETE /tasks/:id *)

Lemma delete_task_unfold (id : string) (db : PG.Db) :
  Api.delete_task id db =
    match PG.int4in (Some id) with
    | Some i =>
        let rows := filter (λ r, PG.id_is i r = true) (PG.tasks db) in
        let db' := PG.set_tasks (filter (λ r, PG.id_is i r = false) (PG.tasks db)) db in
        if (length rows =? 0)%nat
        then (Api.mkResponse 404 (Api.Error "Tarea no encontrada"), db')
        else (Api.mkResponse 200 (Api.Deleted "Tarea eliminada correctamente" (rows !! 0%nat)),
              db')
    | None => (Api.mkResponse 500 (Api.Error "Error al eliminar la tarea"), db)
    end.
Proof.
  unfold Api.delete_task, PG.query, PG.delete_task.
  change (PG.prepareValue (JS.Str id)) with (Some id).
  destruct (PG.int4in (Some id)) as [i |]; done.
Qed.

Lemma get_tasks_unfold (db : PG.Db) :
  Api.get_tasks db = (Api.mkResponse 200 (Api.Rows (PG.tasks db)), db).
Proof. reflexivity. Qed.

(** C6: for every DELETE /tasks/:id request where a row of the table
    matches :id, the handler removes that row and no other, keeping the
    order of the rest, responds 200 with the confirmation message and the
    deleted row, and a GET /tasks served next lists the remaining rows,
    none of which has the identifier of the deleted one. *)
Theorem delete_task_removes (id : string) (db : PG.Db) (r : Task.row) :
  r ∈ PG.tasks db → PG.matches id r = true → PG.key_unique db →
  ∃ (l1 l2 : list Task.row) (db' : PG.Db),
    PG.tasks db = l1 ++ r :: l2 ∧
    db' = PG.mkDb (l1 ++ l2) (PG.tasks_id_seq db) (PG.users db) ∧
    Api.delete_task id db =
      (Api.mkResponse 200 (Api.Deleted "Tarea eliminada correctamente" (Some r)), db') ∧
    Api.get_tasks db' = (Api.mkResponse 200 (Api.Rows (l1 ++ l2)), db') ∧
    (r ∉ l1 ++ l2) ∧
    (∀ r', r' ∈ l1 ++ l2 → Task.id r' ≠ Task.id r).
Proof.
  intros Hin Hm Hnd. apply matches_spec in Hm.
  destruct (filter_hit_split _ _ Hnd Hin) as (Hhit & l1 & l2 & Hsplit & Hrest & Hids).
  exists l1, l2. eexists. split; [done |]. split; [reflexivity |].
  rewrite delete_task_unfold, Hm. simpl. rewrite Hhit, Hrest. simpl.
  split; [done |]. split; [done |]. split; [| done].
  intros Hr. by apply (Hids r Hr).
Qed.

Lemma delete_task_removes_witness :
  Sample.comprar_pan ∈ PG.tasks Sample.db_two ∧
  PG.matches "1" Sample.comprar_pan = true ∧
  PG.key_unique Sample.db_two ∧
  ∃ (l1 l2 : list Task.row) (db' : PG.Db),
    PG.tasks Sample.db_two = l1 ++ Sample.comprar_pan :: l2 ∧
    db' = PG.mkDb (l1 ++ l2) (PG.tasks_id_seq Sample.db_two) (PG.users Sample.db_two) ∧
    Api.delete_task "1" Sample.db_two =
      (Api.mkResponse 200
         (Api.Deleted "Tarea eliminada correctamente" (Some Sample.comprar_pan)), db') ∧
    Api.get_tasks db' = (Api.mkResponse 200 (Api.Rows (l1 ++ l2)), db') ∧
    (Sample.comprar_pan ∉ l1 ++ l2) ∧
    (∀ r', r' ∈ l1 ++ l2 → Task.id r' ≠ Task.id Sample.comprar_pan).
Proof.
  assert (Sample.comprar_pan ∈ PG.tasks Sample.db_two) as Hin by (simpl; left).
  assert (PG.key_unique Sample.db_two) as Hnd.
  { unfold PG.key_unique. apply (bool_decide_unpack _). by vm_compute. }
  split; [exact Hin |]. split; [reflexivity |]. split; [exact Hnd |].
  apply (delete_task_removes "1" Sample.db_two Sample.comprar_pan);
    [exact Hin | reflexivity | exact Hnd].
Defined.




(** ** Invariants of the table *)


Lemma handle_valid (req : Api.Request) (db : PG.Db) :
  Forall (λ r, Api.valid_task r = true) (PG.tasks db) →
  Forall (λ r, Api.valid_task r = true) (PG.tasks (Api.handle req db).2).
Proof.
  intros Hdb. destruct req as [| body | id body | id]; simpl.
  - done.
  - destruct (post_tasks_cases body db)
      as [[_ ->] | [(_ & _ & db' & -> & Hsame & _) | (_ & _ & t & uid & _ & Hne & _ & ->)]];
      simpl; [done | by rewrite Hsame |].
    apply Forall_app. split; [done |]. apply Forall_singleton.
    unfold Api.valid_task. simpl. apply negb_true_iff, String.eqb_neq. done.
  - rewrite put_task_unfold.
    destruct (PG.boolin _) as [b |]; [| done].
    destruct (PG.int4in (Some id)) as [i |]; [| done]. simpl.
    pose proof (update_Forall _ b i _ (λ r Hr, Hr : Api.valid_task (Task.with_is_completed b r) = true) Hdb).
    by destruct (_ =? _)%nat.
  - rewrite delete_task_unfold.
    destruct (PG.int4in (Some id)) as [i |]; [| done]. simpl.
    assert (Forall (λ r, Api.valid_task r = true)
              (filter (λ r, PG.id_is i r = false) (PG.tasks db))).
    { apply Forall_forall. intros r [_ Hr]%list_elem_of_filter.
      by apply (proj1 (Forall_forall _ _) Hdb). }
    by destruct (_ =? _)%nat.
Qed.

Lemma serve_cons (req : Api.Request) (reqs : list Api.Request) (db : PG.Db) :
  Api.serve (req :: reqs) db =
    ((Api.handle req db).1 :: (Api.serve reqs (Api.handle req db).2).1,
     (Api.serve reqs (Api.handle req db).2).2).
Proof.
  simpl. destruct (Api.handle req db) as [res db1]. simpl.
  by destruct (Api.serve reqs db1).
Qed.

(** C8: from any state of the table in which every row has a non-empty
    title and a user_id, every request, and so every sequence of requests,
    leads to a state in which every row has them. *)
Theorem tasks_stay_valid (reqs : list Api.Request) (db : PG.Db) :
  Forall (λ r, Api.valid_task r = true) (PG.tasks db) →
  Forall (λ r, Api.valid_task r = true) (PG.tasks (Api.serve reqs db).2).
Proof.
  revert db. induction reqs as [| req reqs IH]; intros db Hdb; [done |].
  rewrite serve_cons. simpl. by apply IH, handle_valid.
Qed.

Lemma tasks_stay_valid_witness :
  Forall (λ r, Api.valid_task r = true) (PG.tasks Sample.db_two) ∧
  Forall (λ r, Api.valid_task r = true)
    (PG.tasks (Api.serve [Api.POST_tasks Sample.body_pan; Api.PUT_task "1" Sample.body_done;
                          Api.DELETE_task "2"] Sample.db_two).2).
Proof.
  assert (Forall (λ r, Api.valid_task r = true) (PG.tasks Sample.db_two)) as Hdb.
  { simpl. repeat constructor. }
  split; [exact Hdb |]. exact (tasks_stay_valid _ Sample.db_two Hdb).
Defined.

(** ** Runs of creates and deletes *)

Lemma filter_keep {A : Type} (P : A → Prop) {HP : ∀ x, Decision (P x)} (l : list A) :
  (∀ x, x ∈ l → P x) → filter P l = l.
Proof.
  induction l as [| x l IH]; intros Hall; [done |].
  rewrite filter_cons_True by (apply Hall; left).
  f_equal. apply IH. intros y Hy. apply Hall. by right.
Qed.

Lemma filter_ext_elem {A : Type} (P Q : A → Prop)
    {HP : ∀ x, Decision (P x)} {HQ : ∀ x, Decision (Q x)} (l : list A) :
  (∀ x, x ∈ l → (P x ↔ Q x)) → filter P l = filter Q l.
Proof.
  induction l as [| x l IH]; intros Hiff; [done |].
  assert (filter P l = filter Q l) as Hl by (apply IH; intros y Hy; apply Hiff; by right).
  assert (P x ↔ Q x) as Hx by (apply Hiff; left).
  destruct (decide (P x)) as [Hp | Hp].
  - rewrite (filter_cons_True P) by done. rewrite (filter_cons_True Q) by by apply Hx.
    by f_equal.
  - rewrite (filter_cons_False P) by done. rewrite (filter_cons_False Q); [done |].
    intros Hq. by apply Hp, Hx.
Qed.

Lemma ids_drawn_filter (P : Task.row → Prop) {HP : ∀ x, Decision (P x)} (db : PG.Db) :
  PG.ids_drawn db →
  PG.ids_drawn (PG.set_tasks (filter P (PG.tasks db)) db).
Proof.
  unfold PG.ids_drawn. simpl. intros Hdb.
  apply Forall_forall. intros r [_ Hr]%list_elem_of_filter.
  by apply (proj1 (Forall_forall _ _) Hdb).
Qed.

(** One create or delete, seen through what its response reports. *)
Lemma handle_log (req : Api.Request) (db : PG.Db) :
  Api.create_or_delete req = true → PG.ids_drawn db →
  PG.tasks (Api.handle req db).2 =
    filter (λ r, Task.id r ∉ Api.deleted req (Api.handle req db).1)
      (PG.tasks db ++ Api.created req (Api.handle req db).1) ∧
  PG.ids_drawn (Api.handle req db).2 ∧
  PG.tasks_id_seq db ≤ PG.tasks_id_seq (Api.handle req db).2 ∧
  Forall (λ r, PG.tasks_id_seq db ≤ Task.id r) (Api.created req (Api.handle req db).1) ∧
  Forall (λ i, i < PG.tasks_id_seq db) (Api.deleted req (Api.handle req db).1).
Proof.
  intros Hreq Hdb. destruct req as [| body | id body | id]; try discriminate; simpl.
  - destruct (post_tasks_cases body db)
      as [[_ ->] | [(_ & _ & db' & -> & Hsame & Hseq) | (_ & _ & t & uid & _ & _ & _ & ->)]];
      simpl.
    + rewrite app_nil_r. split; [symmetry; apply filter_keep; intros; apply not_elem_of_nil |].
      split; [done |]. split; [lia |]. split; constructor.
    + rewrite app_nil_r, Hsame.
      split; [symmetry; apply filter_keep; intros; apply not_elem_of_nil |].
      split. { unfold PG.ids_drawn in *. rewrite Hsame. eapply Forall_impl; [exact Hdb |].
               simpl. intros. lia. }
      split; [done |]. split; constructor.
    + split; [symmetry; apply filter_keep; intros; apply not_elem_of_nil |].
      split. { unfold PG.ids_drawn in *. simpl. apply Forall_app. split.
               - eapply Forall_impl; [exact Hdb |]. simpl. intros. lia.
               - apply Forall_singleton. simpl. lia. }
      split; [lia |]. split; [| constructor]. apply Forall_singleton. simpl. lia.
  - rewrite delete_task_unfold.
    destruct (PG.int4in (Some id)) as [i |]; simpl.
    2:{ rewrite app_nil_r.
        split; [symmetry; apply filter_keep; intros; apply not_elem_of_nil |].
        split; [done |]. split; [lia |]. split; constructor. }
    destruct (filter (λ r, PG.id_is i r = true) (PG.tasks db)) as [| r0 hits] eqn:Hhits; simpl.
    + rewrite app_nil_r.
      assert (∀ r, r ∈ PG.tasks db → PG.id_is i r = false) as Hmiss.
      { intros r Hr. apply not_true_is_false. intros Hhit.
        by apply (filter_nil_not_elem_of (λ r, PG.id_is i r = true) _ r Hhits Hhit). }
      destruct (filter_miss _ _ Hmiss) as [_ ->].
      split; [symmetry; apply filter_keep; intros; apply not_elem_of_nil |].
      split; [by destruct db |]. split; [lia |]. split; constructor.
    + rewrite app_nil_r.
      assert (r0 ∈ PG.tasks db ∧ i = Some (Task.id r0)) as [Hr0 ->].
      { assert (r0 ∈ filter (λ r, PG.id_is i r = true) (PG.tasks db)) as Hin
          by (rewrite Hhits; left).
        apply list_elem_of_filter in Hin as [Hhit Hin]. by apply id_is_spec in Hhit. }
      split.
      { apply filter_ext_elem. intros r _. rewrite list_elem_of_singleton.
        rewrite <- not_true_iff_false, id_is_spec. split; congruence. }
      split; [by apply ids_drawn_filter |]. split; [lia |]. split; [constructor |].
      apply Forall_singleton. by apply (proj1 (Forall_forall _ _) Hdb).
Qed.

Lemma all_created_cons (req : Api.Request) (reqs : list Api.Request)
    (res : Api.Response) (ress : list Api.Response) :
  Api.all_created (req :: reqs) (res :: ress) = Api.created req res ++ Api.all_created reqs ress.
Proof. reflexivity. Qed.

Lemma all_deleted_cons (req : Api.Request) (reqs : list Api.Request)
    (res : Api.Response) (ress : list Api.Response) :
  Api.all_deleted (req :: reqs) (res :: ress) = Api.deleted req res ++ Api.all_deleted reqs ress.
Proof. reflexivity. Qed.

(** A run of creates and deletes from a table whose identifiers were all
    drawn from the generator: the table at the end holds the rows it began
    with and the created ones, less the deleted ones, in that order. *)
Lemma serve_log (reqs : list Api.Request) (db : PG.Db) :
  forallb Api.create_or_delete reqs = true → PG.ids_drawn db →
  PG.tasks (Api.serve reqs db).2 =
    filter (λ r, Task.id r ∉ Api.all_deleted reqs (Api.serve reqs db).1)
      (PG.tasks db ++ Api.all_created reqs (Api.serve reqs db).1) ∧
  Forall (λ r, PG.tasks_id_seq db ≤ Task.id r) (Api.all_created reqs (Api.serve reqs db).1).
Proof.
  revert db. induction reqs as [| req reqs IH]; intros db Hreqs Hdb.
  { simpl. rewrite app_nil_r. split; [| constructor].
    symmetry. apply filter_keep. intros. apply not_elem_of_nil. }
  simpl in Hreqs. apply andb_true_iff in Hreqs as [Hreq Hreqs].
  rewrite serve_cons. cbn [fst snd].
  destruct (handle_log req db Hreq Hdb) as (Hstep & Hdb1 & Hseq & Hnew & Hgone).
  destruct (IH _ Hreqs Hdb1) as [Hrun Hlater].
  rewrite all_created_cons, all_deleted_cons.
  set (res := (Api.handle req db).1) in *. set (db1 := (Api.handle req db).2) in *.
  set (ress := (Api.serve reqs db1).1) in *.
  split.
  - rewrite Hrun, Hstep. rewrite (app_assoc (PG.tasks db)).
    rewrite (filter_app _ (filter _ _)), (filter_app _ (PG.tasks db ++ _)).
    rewrite list_filter_filter. f_equal.
    + apply list_filter_iff. intros r. rewrite not_elem_of_app. tauto.
    + apply filter_ext_elem. intros r Hr. rewrite not_elem_of_app.
      split; [| tauto]. intros Hrest. split; [| done]. intros Hr0.
      pose proof (proj1 (Forall_forall _ _) Hgone _ Hr0) as Hlt.
      pose proof (proj1 (Forall_forall _ _) Hlater _ Hr) as Hge. simpl in Hlt, Hge. lia.
  - apply Forall_app. split; [done |].
    eapply Forall_impl; [exact Hlater |]. simpl. intros. lia.
Qed.

(** C7: in every state of the tasks table, GET /tasks responds 200 with
    the rows of the table, all of them and in storage order, and leaves the
    database as it was; hence after any sequence of creates and deletes
    served from an empty table, it returns the created tasks that were not
    deleted, and only those. *)
Theorem get_tasks_reflects (db0 : PG.Db) (reqs : list Api.Request) (db : PG.Db) :
  forallb Api.create_or_delete reqs = true → PG.tasks db = [] →
  Api.get_tasks db0 = (Api.mkResponse 200 (Api.Rows (PG.tasks db0)), db0) ∧
  Api.get_tasks (Api.serve reqs db).2 =
    (Api.mkResponse 200
       (Api.Rows (filter (λ r, Task.id r ∉ Api.all_deleted reqs (Api.serve reqs db).1)
                    (Api.all_created reqs (Api.serve reqs db).1))),
     (Api.serve reqs db).2).
Proof.
  intros Hreqs Hempty. split; [reflexivity |].
  rewrite get_tasks_unfold. do 2 f_equal.
  assert (PG.ids_drawn db) as Hdb by (unfold PG.ids_drawn; rewrite Hempty; constructor).
  destruct (serve_log reqs db Hreqs Hdb) as [-> _]. by rewrite Hempty.
Qed.

Lemma get_tasks_reflects_witness :
  Api.get_tasks Sample.db_two =
    (Api.mkResponse 200 (Api.Rows [Sample.comprar_pan; Sample.pasear]), Sample.db_two) ∧
  (Api.get_tasks
     (Api.serve [Api.POST_tasks Sample.body_pan; Api.POST_tasks Sample.body_pan;
                 Api.DELETE_task "1"; Api.POST_tasks Sample.body_empty_title]
        Sample.db_empty).2).1 =
    Api.mkResponse 200
      (Api.Rows [Task.mk 2 (Some "Comprar pan") None (Some 7) (Some false)]).
Proof.
  pose proof (get_tasks_reflects Sample.db_two
                [Api.POST_tasks Sample.body_pan; Api.POST_tasks Sample.body_pan;
                 Api.DELETE_task "1"; Api.POST_tasks Sample.body_empty_title]
                Sample.db_empty eq_refl eq_refl) as [Hget Hrun].
  split; [exact Hget |]. rewrite Hrun. reflexivity.
Defined.

(** ** Identifiers stay unique *)

Lemma key_unique_filter (P : Task.row → Prop) {HP : ∀ x, Decision (P x)} (l : list Task.row) :
  NoDup (Task.id <$> l) → NoDup (Task.id <$> filter P l).
Proof.
  induction l as [| r l IH]; intros Hnd; [done |].
  rewrite fmap_cons in Hnd.
  pose proof (NoDup_cons_1_1 _ _ Hnd) as Hfresh. apply NoDup_cons_1_2 in Hnd.
  destruct (decide (P r)).
  - rewrite filter_cons_True by done. rewrite fmap_cons. apply NoDup_cons_2; [| by apply IH].
    intros (r' & Heq & [_ Hr']%list_elem_of_filter)%list_elem_of_fmap.
    apply Hfresh. apply list_elem_of_fmap. by exists r'.
  - rewrite filter_cons_False by done. by apply IH.
Qed.

(** Identifiers drawn from the generator and unique stay so under every
    request: the states the router reaches from an empty table all have
    unique identifiers. *)
Lemma handle_keys (req : Api.Request) (db : PG.Db) :
  PG.ids_drawn db → PG.key_unique db →
  PG.ids_drawn (Api.handle req db).2 ∧ PG.key_unique (Api.handle req db).2.
Proof.
  unfold PG.ids_drawn, PG.key_unique. intros Hdb Hnd.
  destruct req as [| body | id body | id]; simpl.
  - done.
  - destruct (post_tasks_cases body db)
      as [[_ ->] | [(_ & _ & db' & -> & Hsame & Hseq) | (_ & _ & t & uid & _ & _ & _ & ->)]];
      simpl; [done | |].
    + rewrite Hsame. split; [| done]. eapply Forall_impl; [exact Hdb |]. simpl. intros. lia.
    + split.
      * apply Forall_app. split; [| apply Forall_singleton; simpl; lia].
        eapply Forall_impl; [exact Hdb |]. simpl. intros. lia.
      * rewrite fmap_app. apply NoDup_app. split; [done |]. split; [| apply NoDup_singleton].
        intros i (r & -> & Hr)%list_elem_of_fmap. simpl.
        intros Heq%list_elem_of_singleton.
        pose proof (proj1 (Forall_forall _ _) Hdb _ Hr) as Hlt. simpl in Hlt. lia.
  - rewrite put_task_unfold.
    destruct (PG.boolin _) as [b |]; [| done].
    destruct (PG.int4in (Some id)) as [i |]; [| done]. simpl.
    pose proof (update_Forall (λ r, Task.id r < PG.tasks_id_seq db) b i _ (λ r Hr, Hr) Hdb).
    assert (NoDup (Task.id <$> (filter (λ r, PG.id_is i r = false) (PG.tasks db) ++
                                (Task.with_is_completed b <$>
                                   filter (λ r, PG.id_is i r = true) (PG.tasks db)))))
      by by rewrite update_ids_perm.
    by destruct (_ =? _)%nat.
  - rewrite delete_task_unfold.
    destruct (PG.int4in (Some id)) as [i |]; [| done]. simpl.
    assert (Forall (λ r, Task.id r < PG.tasks_id_seq db)
              (filter (λ r, PG.id_is i r = false) (PG.tasks db))).
    { apply Forall_forall. intros r [_ Hr]%list_elem_of_filter.
      by apply (proj1 (Forall_forall _ _) Hdb). }
    destruct (_ =? _)%nat; simpl; (split; [done | by apply key_unique_filter]).
Qed.

Lemma serve_keys (reqs : list Api.Request) (db : PG.Db) :
  PG.ids_drawn db → PG.key_unique db →
  PG.ids_drawn (Api.serve reqs db).2 ∧ PG.key_unique (Api.serve reqs db).2.
Proof.
  revert db. induction reqs as [| req reqs IH]; intros db Hdb Hnd; [done |].
  rewrite serve_cons. simpl. destruct (handle_keys req db Hdb Hnd). by apply IH.
Qed.

(** ** The handlers at work *)

(** A user_id that refers to no user: the INSERT fails on the reference,
    the identifier it drew is lost, the table is as before. *)
Example post_unknown_user :
  Api.post_tasks {[ "title" := JS.Str "Regar"; "user_id" := JS.Num 9 ]} Sample.db_two =
    (Api.mkResponse 500 (Api.Error "Error al crear la tarea"),
     PG.mkDb [Sample.comprar_pan; Sample.pasear] 4 [7]).
Proof. by vm_compute. Qed.

(** A user_id that is not a number: the statement is refused before it
    runs. *)
Example post_user_id_true :
  Api.post_tasks {[ "title" := JS.Str "Regar"; "user_id" := JS.Bool true ]} Sample.db_two =
    (Api.mkResponse 500 (Api.Error "Error al crear la tarea"), Sample.db_two).
Proof. by vm_compute. Qed.

(** A numeric title is stored as its decimal text, a textual user_id as
    the number it spells. *)
Example post_coerced :
  Api.post_tasks
    {[ "title" := JS.Num 2024; "description" := JS.Null; "user_id" := JS.Str "7" ]}
    Sample.db_empty =
    (Api.mkResponse 201 (Api.Row (Some (Task.mk 1 (Some "2024") None (Some 7) (Some false)))),
     PG.mkDb [Task.mk 1 (Some "2024") None (Some 7) (Some false)] 2 [7]).
Proof. by vm_compute. Qed.

Example put_not_a_number :
  Api.put_task "abc" Sample.body_done Sample.db_two =
    (Api.mkResponse 500 (Api.Error "Error al actualizar la tarea"), Sample.db_two).
Proof. by vm_compute. Qed.

(** A body without is_completed sets the column to NULL; the updated row is
    read last afterwards. *)
Example put_without_is_completed :
  Api.put_task "1" ∅ Sample.db_two =
    (Api.mkResponse 200 (Api.Row (Some (Task.with_is_completed None Sample.comprar_pan))),
     PG.mkDb [Sample.pasear; Task.with_is_completed None Sample.comprar_pan] 3 [7]).
Proof. by vm_compute. Qed.

(** Blanks around an identifier and a boolean in capitals are read; a
    description that holds U+0000 is refused. *)
Example put_lenient_syntax :
  Api.put_task " 2 " {[ "is_completed" := JS.Str "FALSE" ]} Sample.db_two =
    (Api.mkResponse 200 (Api.Row (Some (Task.with_is_completed (Some false) Sample.pasear))),
     PG.mkDb [Sample.comprar_pan; Task.with_is_completed (Some false) Sample.pasear] 3 [7]).
Proof. by vm_compute. Qed.

Example post_description_with_nul :
  Api.post_tasks (<["description" := JS.Str (String Ascii.zero "")]> Sample.body_pan)
    Sample.db_two =
    (Api.mkResponse 500 (Api.Error "Error al crear la tarea"), Sample.db_two).
Proof. by vm_compute. Qed.

Example delete_then_get :
  (Api.serve [Api.DELETE_task "1"; Api.GET_tasks; Api.DELETE_task "1"] Sample.db_two).1 =
    [Api.mkResponse 200 (Api.Deleted "Tarea eliminada correctamente" (Some Sample.comprar_pan));
     Api.mkResponse 200 (Api.Rows [Sample.pasear]);
     Api.mkResponse 404 (Api.Error "Tarea no encontrada")].
Proof. by vm_compute. Qed.

(** ** The outcomes of PUT and DELETE *)

Lemma filter_hit_nil (i : option Z) (l : list Task.row) :
  filter (λ r, PG.id_is i r = true) l = [] → ∀ r, r ∈ l → PG.id_is i r = false.
Proof.
  intros Hnil r Hr. apply not_true_is_false. intros Hhit.
  by apply (filter_nil_not_elem_of (λ r, PG.id_is i r = true) _ r Hnil Hhit).
Qed.

Lemma filter_hit_head (i : option Z) (l : list Task.row) (r0 : Task.row) (hits : list Task.row) :
  filter (λ r, PG.id_is i r = true) l = r0 :: hits → r0 ∈ l ∧ PG.id_is i r0 = true.
Proof.
  intros Heq.
  assert (r0 ∈ filter (λ r, PG.id_is i r = true) l) as Hin by (rewrite Heq; left).
  apply list_elem_of_filter in Hin as [Hhit Hin]. done.
Qed.

(** The three ways a PUT /tasks/:id ends. *)
Lemma put_task_cases (id : string) (body : gmap string JS.value) (db : PG.Db) :
  ((PG.boolin (PG.prepareValue (JS.get body "is_completed")) = None ∨
    PG.int4in (Some id) = None) ∧
   Api.put_task id body db =
     (Api.mkResponse 500 (Api.Error "Error al actualizar la tarea"), db))
  ∨ (∃ b i,
       PG.boolin (PG.prepareValue (JS.get body "is_completed")) = Some b ∧
       PG.int4in (Some id) = Some i ∧
       (∀ r, r ∈ PG.tasks db → PG.id_is i r = false) ∧
       Api.put_task id body db =
         (Api.mkResponse 404 (Api.Error "Tarea no encontrada"), db))
  ∨ (∃ b i r0 hits,
       PG.boolin (PG.prepareValue (JS.get body "is_completed")) = Some b ∧
       PG.int4in (Some id) = Some i ∧
       filter (λ r, PG.id_is i r = true) (PG.tasks db) = r0 :: hits ∧
       Api.put_task id body db =
         (Api.mkResponse 200 (Api.Row (Some (Task.with_is_completed b r0))),
          PG.set_tasks
            (filter (λ r, PG.id_is i r = false) (PG.tasks db) ++
             (Task.with_is_completed b <$> filter (λ r, PG.id_is i r = true) (PG.tasks db)))
            db)).
Proof.
  rewrite put_task_unfold.
  destruct (PG.boolin _) as [b |]; [| left; split; [by left | done]].
  destruct (PG.int4in (Some id)) as [i |]; [| left; split; [by right | done]].
  right. simpl.
  destruct (filter (λ r, PG.id_is i r = true) (PG.tasks db)) as [| r0 hits] eqn:Hhits.
  - left. exists b, i. pose proof (filter_hit_nil _ _ Hhits) as Hmiss.
    do 3 (split; [done |]). simpl.
    destruct (filter_miss _ _ Hmiss) as [_ ->]. by rewrite app_nil_r, set_tasks_same.
  - right. exists b, i, r0, hits. by rewrite Hhits.
Qed.

(** The three ways a DELETE /tasks/:id ends. *)
Lemma delete_task_cases (id : string) (db : PG.Db) :
  (PG.int4in (Some id) = None ∧
   Api.delete_task id db =
     (Api.mkResponse 500 (Api.Error "Error al eliminar la tarea"), db))
  ∨ (∃ i,
       PG.int4in (Some id) = Some i ∧
       (∀ r, r ∈ PG.tasks db → PG.id_is i r = false) ∧
       Api.delete_task id db =
         (Api.mkResponse 404 (Api.Error "Tarea no encontrada"), db))
  ∨ (∃ i r0 hits,
       PG.int4in (Some id) = Some i ∧
       filter (λ r, PG.id_is i r = true) (PG.tasks db) = r0 :: hits ∧
       Api.delete_task id db =
         (Api.mkResponse 200 (Api.Deleted "Tarea eliminada correctamente" (Some r0)),
          PG.set_tasks (filter (λ r, PG.id_is i r = false) (PG.tasks db)) db)).
Proof.
  rewrite delete_task_unfold.
  destruct (PG.int4in (Some id)) as [i |]; [| by left].
  right. simpl.
  destruct (filter (λ r, PG.id_is i r = true) (PG.tasks db)) as [| r0 hits] eqn:Hhits; simpl.
  - left. exists i. pose proof (filter_hit_nil _ _ Hhits) as Hmiss.
    do 2 (split; [done |]). destruct (filter_miss _ _ Hmiss) as [_ ->].
    by rewrite set_tasks_same.
  - right. by exists i, r0, hits.
Qed.

(** ** What the responses tell *)

(** X1: a request answered with an error status, 400, 404 or 500, leaves
    the tasks table as it was. *)
Theorem error_leaves_table (req : Api.Request) (db : PG.Db) :
  (400 ≤ Api.status (Api.handle req db).1)%nat →
  PG.tasks (Api.handle req db).2 = PG.tasks db.
Proof.
  destruct req as [| body | id body | id]; simpl.
  - intros H. lia.
  - destruct (post_tasks_cases body db)
      as [[_ ->] | [(_ & _ & db' & -> & Hsame & _) | (_ & _ & t & uid & _ & _ & _ & ->)]];
      simpl; [done | done |]. intros H. lia.
  - destruct (put_task_cases id body db)
      as [[_ ->] | [(b & i & _ & _ & _ & ->) | (b & i & r0 & hits & _ & _ & _ & ->)]];
      simpl; [done | done |]. intros H. lia.
  - destruct (delete_task_cases id db)
      as [[_ ->] | [(i & _ & _ & ->) | (i & r0 & hits & _ & _ & ->)]];
      simpl; [done | done |]. intros H. lia.
Qed.

Lemma error_leaves_table_witness :
  (400 ≤ Api.status (Api.handle (Api.PUT_task "abc" Sample.body_done) Sample.db_two).1)%nat ∧
  PG.tasks (Api.handle (Api.PUT_task "abc" Sample.body_done) Sample.db_two).2 =
    PG.tasks Sample.db_two.
Proof.
  assert (400 ≤ Api.status
                  (Api.handle (Api.PUT_task "abc" Sample.body_done) Sample.db_two).1)%nat
    as Herr by (vm_compute; lia).
  split; [exact Herr |].
  exact (error_leaves_table (Api.PUT_task "abc" Sample.body_done) Sample.db_two Herr).
Defined.

(** X3: a POST answered 201 and a PUT answered 200 carry a row, never an
    undefined body, and that row is in the table afterwards; a DELETE
    answered 200 carries a row that was in the table and is no longer. *)
Theorem success_carries_row (req : Api.Request) (db : PG.Db) :
  req ≠ Api.GET_tasks →
  (Api.status (Api.handle req db).1 < 400)%nat →
  ∃ r : Task.row,
    (Api.json (Api.handle req db).1 = Api.Row (Some r) ∧
     r ∈ PG.tasks (Api.handle req db).2)
    ∨ (Api.json (Api.handle req db).1 =
         Api.Deleted "Tarea eliminada correctamente" (Some r) ∧
       r ∈ PG.tasks db ∧ r ∉ PG.tasks (Api.handle req db).2).
Proof.
  intros Hreq. destruct req as [| body | id body | id]; simpl; [done | | |].
  - destruct (post_tasks_cases body db)
      as [[_ ->] | [(_ & _ & db' & -> & _) | (_ & _ & t & uid & _ & _ & _ & ->)]];
      simpl; [intros H; lia | intros H; lia |].
    intros _. eexists. left. split; [reflexivity |].
    apply elem_of_app. right. left.
  - destruct (put_task_cases id body db)
      as [[_ ->] | [(b & i & _ & _ & _ & ->) | (b & i & r0 & hits & _ & _ & Hhits & ->)]];
      simpl; [intros H; lia | intros H; lia |].
    intros _. exists (Task.with_is_completed b r0). left. split; [done |].
    apply filter_hit_head in Hhits as [Hin Hhit].
    apply elem_of_app. right. apply list_elem_of_fmap_2. by apply list_elem_of_filter.
  - destruct (delete_task_cases id db)
      as [[_ ->] | [(i & _ & _ & ->) | (i & r0 & hits & _ & Hhits & ->)]];
      simpl; [intros H; lia | intros H; lia |].
    intros _. exists r0. right. split; [done |].
    apply filter_hit_head in Hhits as [Hin Hhit]. split; [done |].
    intros [Hmiss _]%list_elem_of_filter. congruence.
Qed.

Lemma success_carries_row_witness :
  Api.DELETE_task "2" ≠ Api.GET_tasks ∧
  (Api.status (Api.handle (Api.DELETE_task "2") Sample.db_two).1 < 400)%nat ∧
  ∃ r : Task.row,
    (Api.json (Api.handle (Api.DELETE_task "2") Sample.db_two).1 = Api.Row (Some r) ∧
     r ∈ PG.tasks (Api.handle (Api.DELETE_task "2") Sample.db_two).2)
    ∨ (Api.json (Api.handle (Api.DELETE_task "2") Sample.db_two).1 =
         Api.Deleted "Tarea eliminada correctamente" (Some r) ∧
       r ∈ PG.tasks Sample.db_two ∧
       r ∉ PG.tasks (Api.handle (Api.DELETE_task "2") Sample.db_two).2).
Proof.
  assert (Api.DELETE_task "2" ≠ Api.GET_tasks) as Hreq by discriminate.
  assert (Api.status (Api.handle (Api.DELETE_task "2") Sample.db_two).1 < 400)%nat
    as Hok by (vm_compute; lia).
  split; [exact Hreq |]. split; [exact Hok |].
  exact (success_carries_row (Api.DELETE_task "2") Sample.db_two Hreq Hok).
Defined.

(** ** Repeating a request *)

(** An UPDATE run again selects the rows it updated and finds them as it
    left them. *)
Lemma update_again (b : option bool) (i : option Z) (l : list Task.row) :
  filter (λ r, PG.id_is i r = true)
    (filter (λ r, PG.id_is i r = false) l ++
     (Task.with_is_completed b <$> filter (λ r, PG.id_is i r = true) l))
  = Task.with_is_completed b <$> filter (λ r, PG.id_is i r = true) l ∧
  filter (λ r, PG.id_is i r = false)
    (filter (λ r, PG.id_is i r = false) l ++
     (Task.with_is_completed b <$> filter (λ r, PG.id_is i r = true) l))
  = filter (λ r, PG.id_is i r = false) l ∧
  Task.with_is_completed b <$>
    (Task.with_is_completed b <$> filter (λ r, PG.id_is i r = true) l)
  = Task.with_is_completed b <$> filter (λ r, PG.id_is i r = true) l.
Proof.
  rewrite !filter_app.
  destruct (filter_miss i _ (missed_miss i l)) as [-> ->].
  destruct (filter_all_hit i _ (updated_hit b i l)) as [-> ->].
  split; [done |]. split; [apply app_nil_r |].
  rewrite <- list_fmap_compose. by apply list_fmap_ext.
Qed.

(** X4: PUT /tasks/:id is idempotent: the same request served a second
    time gets the same response and leaves the database as the first
    left it. *)
Theorem put_task_idempotent (id : string) (body : gmap string JS.value) (db : PG.Db) :
  Api.put_task id body (Api.put_task id body db).2 = Api.put_task id body db.
Proof.
  destruct (put_task_cases id body db)
    as [[_ Hput] | [(b & i & _ & _ & _ & Hput) | (b & i & r0 & hits & Hb & Hi & Hhits & Hput)]];
    [rewrite Hput; exact Hput | rewrite Hput; exact Hput |].
  rewrite Hput. simpl. rewrite put_task_unfold, Hb, Hi. simpl.
  destruct (update_again b i (PG.tasks db)) as (-> & -> & ->).
  rewrite Hhits. reflexivity.
Qed.

(** X5: once a DELETE /tasks/:id has been answered 200 or 404, no row of
    the table matches :id, and the same DELETE served again is answered 404
    and changes nothing. *)
Theorem delete_task_twice (id : string) (db : PG.Db) :
  Api.status (Api.delete_task id db).1 ≠ 500%nat →
  (∀ r, r ∈ PG.tasks (Api.delete_task id db).2 → PG.matches id r = false) ∧
  Api.delete_task id (Api.delete_task id db).2 =
    (Api.mkResponse 404 (Api.Error "Tarea no encontrada"), (Api.delete_task id db).2).
Proof.
  destruct (delete_task_cases id db)
    as [[_ ->] | [(i & Hi & Hmiss & Hdel) | (i & r0 & hits & Hi & _ & Hdel)]];
    [done | |]; intros _.
  - rewrite Hdel. simpl. split; [| done].
    intros r Hr. rewrite (matches_id_is id i) by done. by apply Hmiss.
  - rewrite Hdel. simpl.
    assert (∀ r, r ∈ filter (λ r, PG.id_is i r = false) (PG.tasks db) → PG.id_is i r = false)
      as Hmiss by (by intros r [Hr _]%list_elem_of_filter).
    split.
    + intros r Hr. rewrite (matches_id_is id i) by done. by apply Hmiss.
    + rewrite delete_task_unfold, Hi. simpl.
      destruct (filter_miss _ _ Hmiss) as [-> ->]. done.
Qed.

Lemma delete_task_twice_witness :
  Api.status (Api.delete_task "1" Sample.db_two).1 ≠ 500%nat ∧
  (∀ r, r ∈ PG.tasks (Api.delete_task "1" Sample.db_two).2 → PG.matches "1" r = false) ∧
  Api.delete_task "1" (Api.delete_task "1" Sample.db_two).2 =
    (Api.mkResponse 404 (Api.Error "Tarea no encontrada"),
     (Api.delete_task "1" Sample.db_two).2).
Proof.
  assert (Api.status (Api.delete_task "1" Sample.db_two).1 ≠ 500%nat) as Hok
    by (vm_compute; lia).
  split; [exact Hok |]. exact (delete_task_twice "1" Sample.db_two Hok).
Defined.

Lemma update_succeeds_iff (v : JS.value) (id : string) (db : PG.Db) :
  PG.succeeds (PG.UpdateTask v (JS.Str id)) db = true ↔
  PG.boolin (PG.prepareValue v) ≠ None ∧ PG.int4in (Some id) ≠ None.
Proof.
  unfold PG.succeeds, PG.query, PG.update_task.
  change (PG.prepareValue (JS.Str id)) with (Some id).
  destruct (PG.boolin _) as [b |]; [| by split; [| intros []]].
  destruct (PG.int4in (Some id)) as [i |]; [by split | by split; [| intros []]].
Qed.

(** X6: DELETE /tasks/:id is answered 200 exactly when a row of the table
    matches :id, and PUT /tasks/:id exactly when a row matches :id and the
    UPDATE statement runs without a database error; identifiers need not be
    unique for this. *)
Theorem found_iff_row_matches (id : string) (body : gmap string JS.value) (db : PG.Db) :
  (Api.status (Api.delete_task id db).1 = 200%nat ↔
     ∃ r, r ∈ PG.tasks db ∧ PG.matches id r = true) ∧
  (Api.status (Api.put_task id body db).1 = 200%nat ↔
     (∃ r, r ∈ PG.tasks db ∧ PG.matches id r = true) ∧
     PG.succeeds (PG.UpdateTask (JS.get body "is_completed") (JS.Str id)) db = true).
Proof.
  split.
  - destruct (delete_task_cases id db)
      as [[Hi ->] | [(i & Hi & Hmiss & ->) | (i & r0 & hits & Hi & Hhits & ->)]];
      cbn [fst snd Api.status].
    + split; [discriminate |]. intros (r & _ & Hm). unfold PG.matches in Hm.
      change (PG.prepareValue (JS.Str id)) with (Some id) in Hm. by rewrite Hi in Hm.
    + split; [discriminate |]. intros (r & Hr & Hm).
      rewrite (matches_id_is id i) in Hm by done. rewrite Hmiss in Hm by done. discriminate.
    + split; [| done]. intros _. apply filter_hit_head in Hhits as [Hin Hhit].
      exists r0. by rewrite (matches_id_is id i).
  - rewrite update_succeeds_iff.
    destruct (put_task_cases id body db)
      as [[Herr ->] | [(b & i & Hb & Hi & Hmiss & ->) | (b & i & r0 & hits & Hb & Hi & Hhits & ->)]];
      cbn [fst snd Api.status].
    + split; [discriminate |]. intros [_ [Hb Hi]]. by destruct Herr.
    + split; [discriminate |]. intros [(r & Hr & Hm) _].
      rewrite (matches_id_is id i) in Hm by done. rewrite Hmiss in Hm by done. discriminate.
    + split; [| done]. intros _. rewrite Hb, Hi. split; [| done].
      apply filter_hit_head in Hhits as [Hin Hhit].
      exists r0. by rewrite (matches_id_is id i).
Qed.

(** ** Creating *)

(** X7: POST /tasks is answered 201 exactly when title and user_id are
    truthy and the INSERT statement runs without a database error; the
    table has one more row after a 201 and is as it was after any other
    answer. *)
Theorem post_tasks_201_iff (body : gmap string JS.value) (db : PG.Db) :
  (Api.status (Api.post_tasks body db).1 = 201%nat ↔
     JS.truthy (JS.get body "title") = true ∧ JS.truthy (JS.get body "user_id") = true ∧
     PG.succeeds (PG.InsertTask (JS.get body "title") (JS.get body "description")
                    (JS.get body "user_id")) db = true) ∧
  (Api.status (Api.post_tasks body db).1 = 201%nat →
     length (PG.tasks (Api.post_tasks body db).2) = S (length (PG.tasks db))) ∧
  (Api.status (Api.post_tasks body db).1 ≠ 201%nat →
     PG.tasks (Api.post_tasks body db).2 = PG.tasks db).
Proof.
  destruct (JS.truthy (JS.get body "title")) eqn:Ht; cycle 1.
  { rewrite post_tasks_guard by by left. cbn [fst snd Api.status].
    split; [split; [discriminate | by intros [? _]] | by split]. }
  destruct (JS.truthy (JS.get body "user_id")) eqn:Hu; cycle 1.
  { rewrite post_tasks_guard by by right. cbn [fst snd Api.status].
    split; [split; [discriminate | by intros (_ & ? & _)] | by split]. }
  rewrite post_tasks_pass by done. unfold PG.succeeds, PG.query.
  destruct (PG.insert_task _ _ _ db) as [[rows |] db'] eqn:Hins; cbn [fst snd Api.status].
  - apply insert_task_result in Hins as (t & uid & _ & _ & _ & -> & ->).
    split; [done |]. split; [| done]. intros _. simpl. rewrite length_app. simpl. lia.
  - apply insert_task_throw in Hins as [Hins _].
    split; [split; [discriminate | by intros (_ & _ & ?)] |]. split; [discriminate | done].
Qed.

Lemma ids_drawn_miss (db : PG.Db) :
  PG.ids_drawn db →
  ∀ r, r ∈ PG.tasks db → PG.id_is (Some (PG.tasks_id_seq db)) r = false.
Proof.
  intros Hdb r Hr. apply not_true_is_false. rewrite id_is_spec. intros [= Heq].
  pose proof (proj1 (Forall_forall _ _) Hdb _ Hr) as Hlt. simpl in Hlt. lia.
Qed.

(** X8: a task just created can be deleted under the identifier the 201
    response reported: when the identifiers of the table were all drawn
    from the generator and the generator is within the range of the id
    column, the DELETE is answered 200 with the created row and the table
    is again what it was before the POST. *)
Theorem post_then_delete (body : gmap string JS.value) (db db1 : PG.Db) (r : Task.row) :
  PG.ids_drawn db →
  -2147483648 ≤ PG.tasks_id_seq db ≤ 2147483647 →
  Api.post_tasks body db = (Api.mkResponse 201 (Api.Row (Some r)), db1) →
  ∃ db2 : PG.Db,
    Api.delete_task (JS.num_to_string (Task.id r)) db1 =
      (Api.mkResponse 200 (Api.Deleted "Tarea eliminada correctamente" (Some r)), db2) ∧
    PG.tasks db2 = PG.tasks db.
Proof.
  intros Hdb Hrange Hpost.
  destruct (post_tasks_cases body db)
    as [[_ H400] | [(_ & _ & db' & H500 & _) | (_ & _ & t & uid & _ & _ & _ & H201)]];
    [rewrite H400 in Hpost; discriminate | rewrite H500 in Hpost; discriminate |].
  simpl in H201. rewrite H201 in Hpost. injection Hpost as <- <-. simpl.
  rewrite delete_task_unfold.
  change (Some (JS.num_to_string (PG.tasks_id_seq db)))
    with (PG.prepareValue (JS.Num (PG.tasks_id_seq db))).
  rewrite int4in_num by done. simpl.
  destruct (filter_miss _ _ (ids_drawn_miss db Hdb)) as [Hhit Hrest].
  rewrite !filter_app, Hhit, Hrest.
  assert (PG.id_is (Some (PG.tasks_id_seq db))
            (Task.mk (PG.tasks_id_seq db) (Some t)
               (PG.prepareValue (JS.get body "description")) (Some uid) (Some false)) = true)
    as Hnew by by apply id_is_spec.
  rewrite filter_cons_True by done. rewrite filter_cons_False by (by rewrite Hnew).
  rewrite !filter_nil. simpl. eexists. split; [reflexivity |]. simpl. by rewrite app_nil_r.
Qed.

Lemma post_then_delete_witness :
  PG.ids_drawn Sample.db_two ∧
  -2147483648 ≤ PG.tasks_id_seq Sample.db_two ≤ 2147483647 ∧
  Api.post_tasks Sample.body_pan Sample.db_two =
    (Api.mkResponse 201
       (Api.Row (Some (Task.mk 3 (Some "Comprar pan") None (Some 7) (Some false)))),
     PG.mkDb [Sample.comprar_pan; Sample.pasear;
              Task.mk 3 (Some "Comprar pan") None (Some 7) (Some false)] 4 [7]) ∧
  ∃ db2 : PG.Db,
    Api.delete_task "3"
      (PG.mkDb [Sample.comprar_pan; Sample.pasear;
                Task.mk 3 (Some "Comprar pan") None (Some 7) (Some false)] 4 [7]) =
      (Api.mkResponse 200
         (Api.Deleted "Tarea eliminada correctamente"
            (Some (Task.mk 3 (Some "Comprar pan") None (Some 7) (Some false)))), db2) ∧
    PG.tasks db2 = PG.tasks Sample.db_two.
Proof.
  assert (PG.ids_drawn Sample.db_two) as Hdb.
  { unfold PG.ids_drawn. simpl. repeat constructor. }
  assert (-2147483648 ≤ PG.tasks_id_seq Sample.db_two ≤ 2147483647) as Hrange
    by (simpl; lia).
  split; [exact Hdb |]. split; [exact Hrange |]. split; [reflexivity |].
  exact (post_then_delete Sample.body_pan Sample.db_two _ _ Hdb Hrange eq_refl).
Defined.

(** X9: the description does not decide the answer of POST /tasks as
    long as the database can hold it: putting any description into the body
    leaves a 400 a 400 and any other answer not a 400, and when the text
    column reads both the new description and the one it replaces, the
    status is the same. *)
Theorem description_optional (body : gmap string JS.value) (v : JS.value) (db : PG.Db) :
  (Api.status (Api.post_tasks (<["description" := v]> body) db).1 = 400%nat ↔
   Api.status (Api.post_tasks body db).1 = 400%nat) ∧
  (PG.textin (PG.prepareValue v) ≠ None →
   PG.textin (PG.prepareValue (JS.get body "description")) ≠ None →
   Api.status (Api.post_tasks (<["description" := v]> body) db).1 =
   Api.status (Api.post_tasks body db).1).
Proof.
  assert (JS.get (<["description" := v]> body) "title" = JS.get body "title") as Ht
    by (unfold JS.get; by rewrite lookup_insert_ne).
  assert (JS.get (<["description" := v]> body) "user_id" = JS.get body "user_id") as Hu
    by (unfold JS.get; by rewrite lookup_insert_ne).
  assert (JS.get (<["description" := v]> body) "description" = v) as Hd
    by (unfold JS.get; by rewrite lookup_insert_eq).
  unfold Api.post_tasks. rewrite Ht, Hu, Hd.
  destruct (JS.not (JS.get body "title") || JS.not (JS.get body "user_id")); [done |].
  unfold PG.query, PG.insert_task. split.
  - destruct (PG.textin (PG.prepareValue (JS.get body "title"))) as [[t |] |];
      destruct (PG.textin (PG.prepareValue v)) as [d |];
      destruct (PG.textin (PG.prepareValue (JS.get body "description"))) as [d' |];
      destruct (PG.int4in (PG.prepareValue (JS.get body "user_id"))) as [[uid |] |];
      try case_bool_decide; done.
  - intros Hv Hold.
    destruct (PG.textin (PG.prepareValue v)) as [d |]; [| done].
    destruct (PG.textin (PG.prepareValue (JS.get body "description"))) as [d' |]; [| done].
    destruct (PG.textin (PG.prepareValue (JS.get body "title"))) as [[t |] |];
      destruct (PG.int4in (PG.prepareValue (JS.get body "user_id"))) as [[uid |] |];
      try case_bool_decide; done.
Qed.

Lemma description_optional_witness :
  PG.textin (PG.prepareValue (JS.Str "pan integral")) ≠ None ∧
  PG.textin (PG.prepareValue (JS.get Sample.body_pan "description")) ≠ None ∧
  Api.status
    (Api.post_tasks (<["description" := JS.Str "pan integral"]> Sample.body_pan)
       Sample.db_two).1 =
  Api.status (Api.post_tasks Sample.body_pan Sample.db_two).1.
Proof.
  assert (PG.textin (PG.prepareValue (JS.Str "pan integral")) ≠ None) as Hv
    by (vm_compute; discriminate).
  assert (PG.textin (PG.prepareValue (JS.get Sample.body_pan "description")) ≠ None) as Hold
    by (vm_compute; discriminate).
  split; [exact Hv |]. split; [exact Hold |].
  exact (proj2 (description_optional Sample.body_pan (JS.Str "pan integral") Sample.db_two)
           Hv Hold).
Defined.

(** ** Updating, then deleting *)

(** X10: a DELETE that follows a PUT on the same :id returns the row as
    the PUT left it: with a row matching :id, unique identifiers and a
    boolean is_completed in the body, the deleted row carries that boolean,
    and what remains is the table without the row. *)
Theorem put_then_delete (id : string) (body : gmap string JS.value) (db : PG.Db)
    (r : Task.row) (c : bool) :
  r ∈ PG.tasks db → PG.matches id r = true → PG.key_unique db →
  JS.get body "is_completed" = JS.Bool c →
  ∃ (l1 l2 : list Task.row) (db2 : PG.Db),
    PG.tasks db = l1 ++ r :: l2 ∧
    Api.delete_task id (Api.put_task id body db).2 =
      (Api.mkResponse 200
         (Api.Deleted "Tarea eliminada correctamente"
            (Some (Task.with_is_completed (Some c) r))), db2) ∧
    PG.tasks db2 = l1 ++ l2.
Proof.
  intros Hin Hm Hnd Hc. apply matches_spec in Hm.
  destruct (filter_hit_split _ _ Hnd Hin) as (Hhits & l1 & l2 & Hsplit & Hrest & Hids).
  assert (∀ r', r' ∈ l1 ++ l2 → PG.id_is (Some (Task.id r)) r' = false) as Hmiss.
  { intros r' Hr'. apply not_true_is_false. rewrite id_is_spec. intros [= Heq].
    by apply (Hids r' Hr'). }
  assert (PG.id_is (Some (Task.id r)) (Task.with_is_completed (Some c) r) = true) as Hhit
    by by apply id_is_spec.
  exists l1, l2. eexists. split; [done |].
  rewrite put_task_unfold, Hc, boolin_bool, Hm. simpl. rewrite Hhits, Hrest. simpl.
  rewrite delete_task_unfold, Hm. simpl.
  rewrite !(filter_app _ (l1 ++ l2)). destruct (filter_miss _ _ Hmiss) as [-> ->].
  rewrite filter_cons_True by done. rewrite filter_cons_False by (by rewrite Hhit).
  rewrite !filter_nil, app_nil_r. simpl. split; reflexivity.
Qed.

Lemma put_then_delete_witness :
  Sample.comprar_pan ∈ PG.tasks Sample.db_two ∧
  PG.matches "1" Sample.comprar_pan = true ∧
  PG.key_unique Sample.db_two ∧
  JS.get Sample.body_done "is_completed" = JS.Bool true ∧
  ∃ (l1 l2 : list Task.row) (db2 : PG.Db),
    PG.tasks Sample.db_two = l1 ++ Sample.comprar_pan :: l2 ∧
    Api.delete_task "1" (Api.put_task "1" Sample.body_done Sample.db_two).2 =
      (Api.mkResponse 200
         (Api.Deleted "Tarea eliminada correctamente"
            (Some (Task.with_is_completed (Some true) Sample.comprar_pan))), db2) ∧
    PG.tasks db2 = l1 ++ l2.
Proof.
  assert (Sample.comprar_pan ∈ PG.tasks Sample.db_two) as Hin by (simpl; left).
  assert (PG.key_unique Sample.db_two) as Hnd.
  { unfold PG.key_unique. apply (bool_decide_unpack _). by vm_compute. }
  split; [exact Hin |]. split; [reflexivity |]. split; [exact Hnd |]. split; [reflexivity |].
  exact (put_then_delete "1" Sample.body_done Sample.db_two Sample.comprar_pan true
           Hin eq_refl Hnd eq_refl).
Defined.

(** ** What no request does *)

(** X11: no request changes the id, title, description or user_id of a
    task: every row of the table after a request either continues a row of
    the table before with those four fields as they were, or is the row
    that this request, a POST answered 201, created. *)
Theorem fields_never_change (req : Api.Request) (db : PG.Db) (r' : Task.row) :
  r' ∈ PG.tasks (Api.handle req db).2 →
  (∃ r, r ∈ PG.tasks db ∧ Task.id r' = Task.id r ∧ Task.title r' = Task.title r ∧
        Task.description r' = Task.description r ∧ Task.user_id r' = Task.user_id r)
  ∨ (∃ body, req = Api.POST_tasks body ∧
             (Api.handle req db).1 = Api.mkResponse 201 (Api.Row (Some r'))).
Proof.
  assert (∀ r, r ∈ PG.tasks db →
            ∃ r0, r0 ∈ PG.tasks db ∧ Task.id r = Task.id r0 ∧ Task.title r = Task.title r0 ∧
                  Task.description r = Task.description r0 ∧
                  Task.user_id r = Task.user_id r0) as Hold by (intros r Hr; by exists r).
  destruct req as [| body | id body | id]; simpl.
  - intros Hr. left. by apply Hold.
  - destruct (post_tasks_cases body db)
      as [[_ ->] | [(_ & _ & db' & -> & Hsame & _) | (_ & _ & t & uid & _ & _ & _ & ->)]];
      simpl; [intros Hr; left; by apply Hold | rewrite Hsame; intros Hr; left; by apply Hold |].
    intros [Hr | ->%list_elem_of_singleton]%elem_of_app; [left; by apply Hold |].
    right. by exists body.
  - destruct (put_task_cases id body db)
      as [[_ ->] | [(b & i & _ & _ & _ & ->) | (b & i & r0 & hits & _ & _ & _ & ->)]];
      simpl; [intros Hr; left; by apply Hold | intros Hr; left; by apply Hold |].
    intros [[_ Hr]%list_elem_of_filter
           | (r & -> & [_ Hr]%list_elem_of_filter)%list_elem_of_fmap]%elem_of_app; left.
    + by apply Hold.
    + by exists r.
  - destruct (delete_task_cases id db)
      as [[_ ->] | [(i & _ & _ & ->) | (i & r0 & hits & _ & _ & ->)]];
      simpl; [intros Hr; left; by apply Hold | intros Hr; left; by apply Hold |].
    intros [_ Hr]%list_elem_of_filter. left. by apply Hold.
Qed.

Lemma fields_never_change_witness :
  Task.with_is_completed (Some true) Sample.comprar_pan ∈
    PG.tasks (Api.handle (Api.PUT_task "1" Sample.body_done) Sample.db_two).2 ∧
  ((∃ r, r ∈ PG.tasks Sample.db_two ∧
         Task.id (Task.with_is_completed (Some true) Sample.comprar_pan) = Task.id r ∧
         Task.title (Task.with_is_completed (Some true) Sample.comprar_pan) = Task.title r ∧
         Task.description (Task.with_is_completed (Some true) Sample.comprar_pan)
           = Task.description r ∧
         Task.user_id (Task.with_is_completed (Some true) Sample.comprar_pan)
           = Task.user_id r)
   ∨ (∃ body, Api.PUT_task "1" Sample.body_done = Api.POST_tasks body ∧
              (Api.handle (Api.PUT_task "1" Sample.body_done) Sample.db_two).1 =
                Api.mkResponse 201
                  (Api.Row (Some (Task.with_is_completed (Some true) Sample.comprar_pan))))).
Proof.
  assert (Task.with_is_completed (Some true) Sample.comprar_pan ∈
            PG.tasks (Api.handle (Api.PUT_task "1" Sample.body_done) Sample.db_two).2) as Hin.
  { vm_compute. right. left. }
  split; [exact Hin |].
  exact (fields_never_change (Api.PUT_task "1" Sample.body_done) Sample.db_two _ Hin).
Defined.

(** X12: only DELETE removes a row: after any other request the table has
    no fewer rows than before, and every row that was in it is still in it,
    with its id, title, description and user_id. *)
Theorem only_delete_removes (req : Api.Request) (db : PG.Db) (r : Task.row) :
  (∀ id, req ≠ Api.DELETE_task id) →
  r ∈ PG.tasks db →
  (length (PG.tasks db) ≤ length (PG.tasks (Api.handle req db).2))%nat ∧
  ∃ r', r' ∈ PG.tasks (Api.handle req db).2 ∧
        Task.id r' = Task.id r ∧ Task.title r' = Task.title r ∧
        Task.description r' = Task.description r ∧ Task.user_id r' = Task.user_id r.
Proof.
  intros Hreq Hr. destruct req as [| body | id body | id]; simpl.
  - split; [done | by exists r].
  - destruct (post_tasks_cases body db)
      as [[_ ->] | [(_ & _ & db' & -> & Hsame & _) | (_ & _ & t & uid & _ & _ & _ & ->)]];
      simpl; [split; [done | by exists r] | rewrite Hsame; split; [done | by exists r] |].
    split; [rewrite length_app; lia |].
    exists r. split; [| done]. apply elem_of_app. by left.
  - destruct (put_task_cases id body db)
      as [[_ ->] | [(b & i & _ & _ & _ & ->) | (b & i & r0 & hits & _ & _ & _ & ->)]];
      simpl; [split; [done | by exists r] | split; [done | by exists r] |].
    split.
    { pose proof (Permutation_length (update_ids_perm b i (PG.tasks db))) as Hlen.
      rewrite !length_fmap in Hlen. by rewrite Hlen. }
    destruct (PG.id_is i r) eqn:Hhit.
    + exists (Task.with_is_completed b r). split; [| done].
      apply elem_of_app. right. apply list_elem_of_fmap_2. by apply list_elem_of_filter.
    + exists r. split; [| done]. apply elem_of_app. left. by apply list_elem_of_filter.
  - by destruct (Hreq id).
Qed.

Lemma only_delete_removes_witness :
  (∀ id, Api.PUT_task "1" Sample.body_done ≠ Api.DELETE_task id) ∧
  Sample.comprar_pan ∈ PG.tasks Sample.db_two ∧
  (length (PG.tasks Sample.db_two) ≤
   length (PG.tasks (Api.handle (Api.PUT_task "1" Sample.body_done) Sample.db_two).2))%nat ∧
  ∃ r', r' ∈ PG.tasks (Api.handle (Api.PUT_task "1" Sample.body_done) Sample.db_two).2 ∧
        Task.id r' = Task.id Sample.comprar_pan ∧
        Task.title r' = Task.title Sample.comprar_pan ∧
        Task.description r' = Task.description Sample.comprar_pan ∧
        Task.user_id r' = Task.user_id Sample.comprar_pan.
Proof.
  assert (∀ id, Api.PUT_task "1" Sample.body_done ≠ Api.DELETE_task id) as Hreq
    by (intros id; discriminate).
  assert (Sample.comprar_pan ∈ PG.tasks Sample.db_two) as Hin by (simpl; left).
  split; [exact Hreq |]. split; [exact Hin |].
  exact (only_delete_removes (Api.PUT_task "1" Sample.body_done) Sample.db_two
           Sample.comprar_pan Hreq Hin).
Defined.

(** ** The port *)

